(** * threejs-tesseract: the 4D geometry and transform engine

    A shallow embedding of [shapes.js] (class [Object4D] and the hyperbox
    generators) together with the handful of [THREE.Matrix4] methods the
    class calls, followed by the properties of the engine.

    Conventions of the embedding.
    - A JavaScript number that carries a coordinate, an angle or a matrix
      coefficient is a [number]: a real, or [NaN].  Finite doubles are
      idealised as reals (no rounding, no overflow); [NaN] is kept because
      reading an array past its end yields [undefined], which the matrix
      arithmetic turns into [NaN].
    - A JavaScript number that is a loop counter or a vertex index is a [Z].
    - A [Float32Array] is a [list number]; a write past its end is ignored
      and a read past its end is [NaN], as for typed arrays.
    - Methods that mutate [this] take the object and return the new one. *)

From Stdlib Require Import Reals Lra ZArith Lia ZifyNat.
From stdpp Require Import base list.

(** ** JavaScript numbers *)

Inductive number : Type :=
  | Num (x : R)
  | NaN.

Declare Scope num_scope.
Delimit Scope num_scope with num.
Bind Scope num_scope with number.

Definition nadd (a b : number) : number :=
  match a, b with
  | Num x, Num y => Num (x + y)
  | _, _ => NaN
  end.

Definition nsub (a b : number) : number :=
  match a, b with
  | Num x, Num y => Num (x - y)
  | _, _ => NaN
  end.

Definition nmul (a b : number) : number :=
  match a, b with
  | Num x, Num y => Num (x * y)
  | _, _ => NaN
  end.

Definition nneg (a : number) : number :=
  match a with
  | Num x => Num (- x)
  | NaN => NaN
  end.

(** [Math.cos] and [Math.sin] *)
Definition ncos (a : number) : number :=
  match a with
  | Num x => Num (cos x)
  | NaN => NaN
  end.

Definition nsin (a : number) : number :=
  match a with
  | Num x => Num (sin x)
  | NaN => NaN
  end.

Infix "+" := nadd : num_scope.
Infix "-" := nsub : num_scope.
Infix "*" := nmul : num_scope.
Notation "- a" := (nneg a) : num_scope.

Definition is_real (a : number) : Prop :=
  match a with
  | Num _ => True
  | NaN => False
  end.

(** ** Arrays of numbers *)

(** [array[i]] used as an operand: [undefined] past the end behaves as [NaN]. *)
Definition read (array : list number) (i : nat) : number :=
  default NaN (array !! i).

Abbreviation Float32Array := (list number).

(** [new Float32Array(source)]: a fresh array holding the same numbers. *)
Definition new_Float32Array (source : list number) : Float32Array := source.

(** [Array.prototype.flat()], one level deep. *)
Definition flat {A : Type} (array : list (list A)) : list A := concat array.

(** ** THREE.Matrix4

    The matrix class of three.js, a dependency of the repository; its
    source is not part of it.  The methods [Object4D] calls are written
    out below as three.js defines them.  [elements] holds the sixteen
    coefficients in column-major order: the coefficient in row [r] and
    column [c] is [elements[4 * c + r]]. *)

Record Matrix4 : Type := mkMatrix4 { elements : list number }.

Definition identity_elements : list number :=
  [ Num 1; Num 0; Num 0; Num 0;
    Num 0; Num 1; Num 0; Num 0;
    Num 0; Num 0; Num 1; Num 0;
    Num 0; Num 0; Num 0; Num 1 ].

(** [new THREE.Matrix4()] and [m.identity()] *)
Definition identity : Matrix4 := mkMatrix4 identity_elements.

(** [m.fromArray(array, offset)]:
    [for (i = 0; i < 16; i++) this.elements[i] = array[i + offset]] *)
Definition fromArray (array : list number) (offset : nat) : Matrix4 :=
  mkMatrix4 ((fun i => read array (i + offset)) <$> seq 0 16).

(** [this.multiplyMatrices(a, b)] *)
Definition multiplyMatrices (a b : Matrix4) : Matrix4 :=
  let ae := elements a in
  let be := elements b in
  let a11 := read ae 0 in let a12 := read ae 4 in
  let a13 := read ae 8 in let a14 := read ae 12 in
  let a21 := read ae 1 in let a22 := read ae 5 in
  let a23 := read ae 9 in let a24 := read ae 13 in
  let a31 := read ae 2 in let a32 := read ae 6 in
  let a33 := read ae 10 in let a34 := read ae 14 in
  let a41 := read ae 3 in let a42 := read ae 7 in
  let a43 := read ae 11 in let a44 := read ae 15 in
  let b11 := read be 0 in let b12 := read be 4 in
  let b13 := read be 8 in let b14 := read be 12 in
  let b21 := read be 1 in let b22 := read be 5 in
  let b23 := read be 9 in let b24 := read be 13 in
  let b31 := read be 2 in let b32 := read be 6 in
  let b33 := read be 10 in let b34 := read be 14 in
  let b41 := read be 3 in let b42 := read be 7 in
  let b43 := read be 11 in let b44 := read be 15 in
  mkMatrix4
    [ (a11 * b11 + a12 * b21 + a13 * b31 + a14 * b41)%num;
      (a21 * b11 + a22 * b21 + a23 * b31 + a24 * b41)%num;
      (a31 * b11 + a32 * b21 + a33 * b31 + a34 * b41)%num;
      (a41 * b11 + a42 * b21 + a43 * b31 + a44 * b41)%num;
      (a11 * b12 + a12 * b22 + a13 * b32 + a14 * b42)%num;
      (a21 * b12 + a22 * b22 + a23 * b32 + a24 * b42)%num;
      (a31 * b12 + a32 * b22 + a33 * b32 + a34 * b42)%num;
      (a41 * b12 + a42 * b22 + a43 * b32 + a44 * b42)%num;
      (a11 * b13 + a12 * b23 + a13 * b33 + a14 * b43)%num;
      (a21 * b13 + a22 * b23 + a23 * b33 + a24 * b43)%num;
      (a31 * b13 + a32 * b23 + a33 * b33 + a34 * b43)%num;
      (a41 * b13 + a42 * b23 + a43 * b33 + a44 * b43)%num;
      (a11 * b14 + a12 * b24 + a13 * b34 + a14 * b44)%num;
      (a21 * b14 + a22 * b24 + a23 * b34 + a24 * b44)%num;
      (a31 * b14 + a32 * b24 + a33 * b34 + a34 * b44)%num;
      (a41 * b14 + a42 * b24 + a43 * b34 + a44 * b44)%num ].

(** [this.multiply(m)] is [this.multiplyMatrices(this, m)] *)
Definition multiply (this m : Matrix4) : Matrix4 := multiplyMatrices this m.

(** [this.premultiply(m)] is [this.multiplyMatrices(m, this)] *)
Definition premultiply (this m : Matrix4) : Matrix4 := multiplyMatrices m this.

(** [m.toArray(array, offset)]:
    [array[offset] = te[0]; ...; array[offset + 15] = te[15]], into a
    typed array. *)
Definition toArray (this : Matrix4) (array : Float32Array) (offset : nat)
  : Float32Array :=
  foldl (fun array k => <[offset + k := read (elements this) k]> array)
        array (seq 0 16).

(** ** The scene objects hanging off an [Object4D]

    [init_edges] and [init_faces] hand [this.transformedVertexes] itself to
    [new THREE.BufferAttribute(..., 4)]: the position attribute of both
    children is that very array, not a copy.  The attribute therefore
    stores no array of its own here; [position_array] reads the shared
    cell.  The [normal] and [uv] attributes and the materials are private
    to the renderer and are left out. *)

Record BufferAttribute : Type := mkBufferAttribute {
  itemSize : nat;
  needsUpdate : bool
}.

Record BufferGeometry : Type := mkBufferGeometry {
  position : BufferAttribute;
  index : list Z
}.

Record Object3D : Type := mkObject3D { geometry : BufferGeometry }.

Record Rotation : Type := mkRotation {
  xy : number; xz : number; yz : number;
  xt : number; yt : number; zt : number
}.

Record Object4D : Type := mkObject4D {
  vertexes : Float32Array;
  transformedVertexes : Float32Array;
  edges : Object3D;
  mesh : Object3D;
  rot : Rotation;
  matrix4D : Matrix4
}.

(** [this.children]: the constructor adds [this.edges], then [this.mesh]. *)
Definition children (this : Object4D) : list Object3D :=
  [edges this; mesh this].

Definition position_array (this : Object4D) (child : Object3D) : Float32Array :=
  transformedVertexes this.

(** [rot = { xy: 0, xz: 0, yz: 0, xt: 0, yt: 0, zt: 0 }] *)
Definition rot_initial : Rotation :=
  mkRotation (Num 0) (Num 0) (Num 0) (Num 0) (Num 0) (Num 0).

Definition init_edges (edges : list (list Z)) : Object3D :=
  mkObject3D (mkBufferGeometry (mkBufferAttribute 4 false) (flat edges)).

Definition init_faces (faces : list (list Z)) : Object3D :=
  mkObject3D (mkBufferGeometry (mkBufferAttribute 4 false) (flat faces)).

(** [new Object4D(vertexes, edges, faces)] *)
Definition new_Object4D (vertexes : list (list number))
    (edges faces : list (list Z)) : Object4D :=
  let vertexes := new_Float32Array (flat vertexes) in
  let transformedVertexes := new_Float32Array vertexes in
  mkObject4D vertexes transformedVertexes
             (init_edges edges) (init_faces faces)
             rot_initial
             (fromArray identity_elements 0).

(** ** Object4D.updateMatrix4D *)

Definition dXY (xy : number) : Matrix4 :=
  fromArray
    [ ncos xy; nsin xy; Num 0; Num 0;
      (- nsin xy)%num; ncos xy; Num 0; Num 0;
      Num 0; Num 0; Num 1; Num 0;
      Num 0; Num 0; Num 0; Num 1 ] 0.

Definition dYZ (yz : number) : Matrix4 :=
  fromArray
    [ Num 1; Num 0; Num 0; Num 0;
      Num 0; ncos yz; nsin yz; Num 0;
      Num 0; (- nsin yz)%num; ncos yz; Num 0;
      Num 0; Num 0; Num 0; Num 1 ] 0.

Definition dXZ (xz : number) : Matrix4 :=
  fromArray
    [ ncos xz; Num 0; nsin xz; Num 0;
      Num 0; Num 1; Num 0; Num 0;
      (- nsin xz)%num; Num 0; ncos xz; Num 0;
      Num 0; Num 0; Num 0; Num 1 ] 0.

Definition dXT (xt : number) : Matrix4 :=
  fromArray
    [ ncos xt; Num 0; Num 0; nsin xt;
      Num 0; Num 1; Num 0; Num 0;
      Num 0; Num 0; Num 1; Num 0;
      (- nsin xt)%num; Num 0; Num 0; ncos xt ] 0.

Definition dYT (yt : number) : Matrix4 :=
  fromArray
    [ Num 1; Num 0; Num 0; Num 0;
      Num 0; ncos yt; Num 0; nsin yt;
      Num 0; Num 0; Num 1; Num 0;
      Num 0; (- nsin yt)%num; Num 0; ncos yt ] 0.

Definition dZT (zt : number) : Matrix4 :=
  fromArray
    [ Num 1; Num 0; Num 0; Num 0;
      Num 0; Num 1; Num 0; Num 0;
      Num 0; Num 0; ncos zt; nsin zt;
      Num 0; Num 0; (- nsin zt)%num; ncos zt ] 0.

Definition set_matrix4D (m : Matrix4) (this : Object4D) : Object4D :=
  mkObject4D (vertexes this) (transformedVertexes this)
             (edges this) (mesh this) (rot this) m.

Definition updateMatrix4D (this : Object4D) : Object4D :=
  let r := rot this in
  let matrix4D := identity in
  let matrix4D := multiply matrix4D (dXT (xt r)) in
  let matrix4D := multiply matrix4D (dYT (yt r)) in
  let matrix4D := multiply matrix4D (dZT (zt r)) in
  let matrix4D := multiply matrix4D (dXY (xy r)) in
  let matrix4D := multiply matrix4D (dYZ (yz r)) in
  let matrix4D := multiply matrix4D (dXZ (xz r)) in
  set_matrix4D matrix4D this.

(** ** Object4D.updateVertexes *)

(** The loop [for (let i = 0; i < originalVertexes.length; i += 4 * 4)].
    [fuel] bounds the number of iterations; [updateVertexes] passes the
    length of the buffer, which is never exhausted (lemma
    [updateVertexes_loop_fuel]). *)
Fixpoint updateVertexes_loop (fuel i : nat)
    (originalVertexes transformedVertexes : Float32Array)
    (matrix4D : Matrix4) : Float32Array :=
  match fuel with
  | O => transformedVertexes
  | S fuel =>
      if decide (i < length originalVertexes) then
        let vectors4 := fromArray originalVertexes i in
        let vectors4 := premultiply vectors4 matrix4D in
        let transformedVertexes := toArray vectors4 transformedVertexes i in
        updateVertexes_loop fuel (i + 4 * 4) originalVertexes
                            transformedVertexes matrix4D
      else transformedVertexes
  end.

(** [child.geometry.attributes.position.needsUpdate = true] *)
Definition set_needsUpdate (child : Object3D) : Object3D :=
  let g := geometry child in
  mkObject3D
    (mkBufferGeometry (mkBufferAttribute (itemSize (position g)) true)
                      (index g)).

Definition updateVertexes (this : Object4D) : Object4D :=
  let originalVertexes := vertexes this in
  let transformedVertexes :=
    updateVertexes_loop (length originalVertexes) 0 originalVertexes
                        (transformedVertexes this) (matrix4D this) in
  mkObject4D (vertexes this) transformedVertexes
             (set_needsUpdate (edges this)) (set_needsUpdate (mesh this))
             (rot this) (matrix4D this).

(** ** Setting an angle

    [main.js] binds a dat.GUI slider to each field of [shape.rot]; moving
    a slider assigns the field and then calls [updateMatrix4D] and
    [updateVertexes]. *)

Inductive Plane : Type := XY | XZ | YZ | XT | YT | ZT.

Definition getAngle (p : Plane) (r : Rotation) : number :=
  match p with
  | XY => xy r | XZ => xz r | YZ => yz r
  | XT => xt r | YT => yt r | ZT => zt r
  end.

Definition set_rot (p : Plane) (value : number) (r : Rotation) : Rotation :=
  match p with
  | XY => mkRotation value (xz r) (yz r) (xt r) (yt r) (zt r)
  | XZ => mkRotation (xy r) value (yz r) (xt r) (yt r) (zt r)
  | YZ => mkRotation (xy r) (xz r) value (xt r) (yt r) (zt r)
  | XT => mkRotation (xy r) (xz r) (yz r) value (yt r) (zt r)
  | YT => mkRotation (xy r) (xz r) (yz r) (xt r) value (zt r)
  | ZT => mkRotation (xy r) (xz r) (yz r) (xt r) (yt r) value
  end.

(** [shape.rot[p] = value] *)
Definition setAngle (p : Plane) (value : number) (this : Object4D) : Object4D :=
  mkObject4D (vertexes this) (transformedVertexes this)
             (edges this) (mesh this)
             (set_rot p value (rot this)) (matrix4D this).

(** Rotating plane [p] by [delta]: the slider moves from its current value
    to that value plus [delta]. *)
Definition rotateBy (p : Plane) (delta : number) (this : Object4D) : Object4D :=
  setAngle p (getAngle p (rot this) + delta)%num this.

(** The calls a client can make on a constructed object. *)
Inductive call : Type :=
  | SetAngle (p : Plane) (value : number)
  | UpdateMatrix4D
  | UpdateVertexes.

Definition step (this : Object4D) (c : call) : Object4D :=
  match c with
  | SetAngle p value => setAngle p value this
  | UpdateMatrix4D => updateMatrix4D this
  | UpdateVertexes => updateVertexes this
  end.

Definition run (calls : list call) (this : Object4D) : Object4D :=
  foldl step this calls.

(** ** The hyperbox generators *)

(** [[i % 2, (i % 4 - i % 2) / 2, (i % 8 - i % 4) / 4, (i % 16 - i % 8) / 8]]:
    every quotient is exact (lemma [vert_quotients_exact]), so the
    division of doubles is the division of integers. *)
Definition vert_of (i : Z) : list Z :=
  [ Z.rem i 2;
    Z.div (Z.rem i 4 - Z.rem i 2) 2;
    Z.div (Z.rem i 8 - Z.rem i 4) 4;
    Z.div (Z.rem i 16 - Z.rem i 8) 8 ].

(** [vert[dir]] *)
Definition at_dir (vert : list Z) (dir : Z) : Z := vert !!! Z.to_nat dir.

Definition hyperboxVertexes (lx ly lz lt : number) : list (list number) :=
  foldl
    (fun vertexes i =>
       let vert := vert_of i in
       let vert0 := (lx * (Num (IZR (at_dir vert 0)) - Num 0.5))%num in
       let vert1 := (ly * (Num (IZR (at_dir vert 1)) - Num 0.5))%num in
       let vert2 := (lz * (Num (IZR (at_dir vert 2)) - Num 0.5))%num in
       let vert3 := (lt * (Num (IZR (at_dir vert 3)) - Num 0.5))%num in
       vertexes ++ [[vert0; vert1; vert2; vert3]])
    [] (seqZ 0 (2 ^ 4)).

Definition hyperboxEdges : list (list Z) :=
  foldl
    (fun edges i =>
       let vert := vert_of i in
       foldl
         (fun edges dir =>
            if decide (at_dir vert dir = 0%Z)
            then edges ++ [[i; (i + 2 ^ dir)%Z]]
            else edges)
         edges [0%Z; 1%Z; 2%Z; 3%Z])
    [] (seqZ 0 (2 ^ 4)).

Definition hypercubeFaces : list (list Z) :=
  foldl
    (fun faces i =>
       let vert := vert_of i in
       foldl
         (fun faces dir1 =>
            foldl
              (fun faces dir2 =>
                 if decide ((dir2 > dir1)%Z /\ at_dir vert dir1 = 0%Z
                            /\ at_dir vert dir2 = 0%Z)
                 then
                   (faces
                      ++ [[i; (i + 2 ^ dir1)%Z; (i + 2 ^ dir1 + 2 ^ dir2)%Z]])
                      ++ [[i; (i + 2 ^ dir1 + 2 ^ dir2)%Z; (i + 2 ^ dir2)%Z]]
                 else faces)
              faces [0%Z; 1%Z; 2%Z; 3%Z])
         faces [0%Z; 1%Z; 2%Z; 3%Z])
    [] (seqZ 0 (2 ^ 4)).

(** [Hyperbox(lx, ly, lz, lt)] *)
Definition Hyperbox (lx ly lz lt : number) : Object4D :=
  new_Object4D (hyperboxVertexes lx ly lz lt) hyperboxEdges hypercubeFaces.

(** ** Matrices read as mathematics

    The vocabulary in which the properties are stated: coefficients by
    row and column, the textbook product, and the elementary rotation
    of a coordinate plane.  Axes are numbered x = 0, y = 1, z = 2, t = 3. *)

(** Coefficient in row [r], column [c] of a three.js matrix.  [main.js]
    reads [matrix4D.elements] the same way when it copies it for the
    eigenvalue diagnostic: row [index % 4], column [index / 4]. *)
Definition entry (m : Matrix4) (r c : nat) : number :=
  read (elements m) (4 * c + r).

Definition sum4 (f : nat -> number) : number :=
  (f 0 + f 1 + f 2 + f 3)%num.

Definition of_entries (f : nat -> nat -> number) : Matrix4 :=
  mkMatrix4 ((fun i => f (Nat.modulo i 4) (Nat.div i 4)) <$> seq 0 16).

(** The product [a b]: row [r] of [a] against column [c] of [b]. *)
Definition mat_mul (a b : Matrix4) : Matrix4 :=
  of_entries (fun r c => sum4 (fun k => entry a r k * entry b k c)%num).

(** The identity with the block [cos, sin, -sin, cos] substituted at the
    two axes [a] and [b] of a plane, in the order of [elements]. *)
Definition plane_rotation (a b : nat) (theta : number) : Matrix4 :=
  mkMatrix4
    (<[4 * b + b := ncos theta]>
       (<[4 * b + a := (- nsin theta)%num]>
          (<[4 * a + b := nsin theta]>
             (<[4 * a + a := ncos theta]> identity_elements)))).

(** The elementary rotation [updateMatrix4D] builds for plane [p]. *)
Definition plane_matrix (p : Plane) (theta : number) : Matrix4 :=
  match p with
  | XY => dXY theta | XZ => dXZ theta | YZ => dYZ theta
  | XT => dXT theta | YT => dYT theta | ZT => dZT theta
  end.

(** The [b]-th block of sixteen numbers of a buffer. *)
Definition block (b : nat) (buffer : list number) : list number :=
  take 16 (drop (16 * b) buffer).

(** The [v]-th 4-vector of a buffer. *)
Definition vertex (v : nat) (buffer : list number) : list number :=
  take 4 (drop (4 * v) buffer).

(** A matrix applied to a 4-vector written as a column. *)
Definition mat_vec (m : Matrix4) (x : list number) : list number :=
  (fun r => sum4 (fun k => entry m r k * read x k)%num) <$> seq 0 4.

(** A buffer the block-wise transform is meant for: whole 4-vectors of
    reals, and as many transformed numbers as original ones. *)
Definition well_formed (this : Object4D) : Prop :=
  length (transformedVertexes this) = length (vertexes this)
  /\ Nat.modulo (length (vertexes this)) 4 = 0
  /\ Forall is_real (vertexes this).

(** What [updateVertexes] leaves at index [j] of the transformed buffer
    when it rewrites that index: the block holding [j] is loaded with
    [fromArray], premultiplied, and coefficient [j - offset] is stored. *)
Definition transformed_at (original : Float32Array) (m : Matrix4) (j : nat)
  : number :=
  let offset := 16 * (j / 16) in
  read (elements (premultiply (fromArray original offset) m)) (j - offset).

(** Coordinate of a hyperbox vertex on an axis of edge length [len]:
    [- len / 2] when the bit of the axis is 0, [+ len / 2] when it is 1. *)
Definition half_length (bit : bool) (len : R) : number :=
  Num (if bit then len / 2 else - len / 2)%R.

(** ** The block transform as the specification words it

    "Each contiguous block of 16 reals, interpreted as a 4x4 matrix in
    row-major order (the four 4-vectors as the four rows), is
    left-multiplied by Transform4D, and the result is written into the
    corresponding block."  [T r k] is the coefficient of Transform4D in
    row [r] and column [k]; [entry] and [entry_rowmajor] are the two ways
    of reading it off [elements]. *)

Definition entry_rowmajor (m : Matrix4) (r c : nat) : number :=
  read (elements m) (4 * r + c).

Definition rowmajor_left_product (T : nat -> nat -> number)
    (blk : list number) : list number :=
  (fun i =>
     sum4 (fun k => T (Nat.div i 4) k * read blk (4 * k + Nat.modulo i 4))%num)
    <$> seq 0 16.

Definition updateVertexes_rowmajor (T : nat -> nat -> number)
    (buffer : list number) : list number :=
  flat ((fun b => rowmajor_left_product T (block b buffer))
          <$> seq 0 (Nat.div (length buffer) 16)).

(** ** Frames *)

(** What a child keeps when only its dirty flag is touched. *)
Definition topology (child : Object3D) : nat * list Z :=
  (itemSize (position (geometry child)), index (geometry child)).

Definition only_transformed_and_flags (before after : Object4D) : Prop :=
  vertexes after = vertexes before
  /\ rot after = rot before
  /\ matrix4D after = matrix4D before
  /\ topology (edges after) = topology (edges before)
  /\ topology (mesh after) = topology (mesh before).

Definition only_matrix4D (before after : Object4D) : Prop :=
  vertexes after = vertexes before
  /\ transformedVertexes after = transformedVertexes before
  /\ rot after = rot before
  /\ edges after = edges before
  /\ mesh after = mesh before.

Definition is_update (c : call) : bool :=
  match c with
  | SetAngle _ _ => false
  | UpdateMatrix4D | UpdateVertexes => true
  end.

(** ** The slider callback of [main.js]

    [onChangeFunc], registered on each of the six sliders:
    [shape.updateMatrix4D(); shape.updateVertexes();] *)
Definition onChangeFunc (shape : Object4D) : Object4D :=
  updateVertexes (updateMatrix4D shape).

(** ** Vectors of reals

    The vocabulary for the geometry of the transform: a 4-vector of reals,
    the numbers it occupies in a buffer, squared distance, and the rotation
    of the two coordinates of a plane by an angle. *)

Abbreviation vec4 := (R * R * R * R)%type.

Definition inj4 (x : vec4) : list number :=
  let '(x0, x1, x2, x3) := x in [Num x0; Num x1; Num x2; Num x3].

Definition dist2 (x y : vec4) : R :=
  let '(x0, x1, x2, x3) := x in
  let '(y0, y1, y2, y3) := y in
  ((x0 - y0) * (x0 - y0) + (x1 - y1) * (x1 - y1)
   + (x2 - y2) * (x2 - y2) + (x3 - y3) * (x3 - y3))%R.

(** Coordinates [a] and [b] turned by [theta], from axis [a] towards axis
    [b]; the other two coordinates kept. *)
Definition rotate_coords (p : Plane) (theta : R) (x : vec4) : vec4 :=
  let '(x0, x1, x2, x3) := x in
  let c := cos theta in
  let s := sin theta in
  match p with
  | XY => (c * x0 - s * x1, s * x0 + c * x1, x2, x3)
  | XZ => (c * x0 - s * x2, x1, s * x0 + c * x2, x3)
  | YZ => (x0, c * x1 - s * x2, s * x1 + c * x2, x3)
  | XT => (c * x0 - s * x3, x1, x2, s * x0 + c * x3)
  | YT => (x0, c * x1 - s * x3, x2, s * x1 + c * x3)
  | ZT => (x0, x1, c * x2 - s * x3, s * x2 + c * x3)
  end%R.

(** Sixteen coefficients, none of them [NaN]. *)
Definition real_matrix (m : Matrix4) : Prop :=
  exists l : list R, length l = 16 /\ elements m = Num <$> l.

(** A matrix that moves 4-vectors of reals without changing distances. *)
Definition isometry (m : Matrix4) : Prop :=
  exists f : vec4 -> vec4,
    (forall x : vec4, mat_vec m (inj4 x) = inj4 (f x))
    /\ (forall x y : vec4, dist2 (f x) (f y) = dist2 x y).

Definition real_angles (r : Rotation) : Prop :=
  is_real (xy r) /\ is_real (xz r) /\ is_real (yz r)
  /\ is_real (xt r) /\ is_real (yt r) /\ is_real (zt r).

(** The first axis of a plane. *)
Definition first_axis (p : Plane) : nat :=
  match p with
  | XY | XZ | XT => 0
  | YZ | YT => 1
  | ZT => 2
  end.

(** Column [c] of a matrix holds nothing but [NaN]. *)
Definition nan_col (m : Matrix4) (c : nat) : Prop :=
  forall r : nat, r < 4 -> entry m r c = NaN.

(** ** The corners of the hyperbox, in reals *)

(** Corner [i] of the box: on each axis minus or plus half the edge
    length, by the bit of the axis in [i]. *)
Definition corner (lx ly lz lt : R) (i : nat) : vec4 :=
  let h (bit : bool) (len : R) := (if bit then len / 2 else - len / 2)%R in
  (h (Nat.testbit i 0) lx, h (Nat.testbit i 1) ly,
   h (Nat.testbit i 2) lz, h (Nat.testbit i 3) lt).

(** The edge length of axis [dir]. *)
Definition edge_length (lx ly lz lt : R) (dir : Z) : R :=
  if (dir =? 0)%Z then lx
  else if (dir =? 1)%Z then ly
  else if (dir =? 2)%Z then lz
  else lt.

(** One step of length [len] along axis [dir]. *)
Definition axis_step (dir : Z) (len : R) (x : vec4) : vec4 :=
  let '(x0, x1, x2, x3) := x in
  if (dir =? 0)%Z then (x0 + len, x1, x2, x3)%R
  else if (dir =? 1)%Z then (x0, x1 + len, x2, x3)%R
  else if (dir =? 2)%Z then (x0, x1, x2 + len, x3)%R
  else (x0, x1, x2, x3 + len)%R.

(** ** Tactics *)

Ltac eval_matrix :=
  cbv [updateMatrix4D set_matrix4D matrix4D rot
       xy xz yz xt yt zt rot_initial
       dXY dYZ dXZ dXT dYT dZT
       multiply premultiply multiplyMatrices fromArray
       identity identity_elements elements
       read default from_option Datatypes.id lookup list_lookup fmap list_fmap seq Nat.add
       nadd nsub nmul nneg ncos nsin].

Ltac matrix_eq tac :=
  apply (f_equal mkMatrix4);
  repeat (apply (f_equal2 cons); [apply (f_equal Num); tac|]);
  try reflexivity.

Ltac vertex_eq :=
  apply (f_equal Some);
  repeat (apply (f_equal2 cons); [apply (f_equal Num); lra|]);
  reflexivity.

Ltac half_unit :=
  first [ left; apply (f_equal Num); lra | right; apply (f_equal Num); lra ].

Ltac vec_eq tac :=
  repeat (apply (f_equal2 cons); [apply (f_equal Num); tac|]);
  try reflexivity.

Ltac eval_mat_vec :=
  cbv [mat_vec sum4 entry inj4 plane_matrix dXY dYZ dXZ dXT dYT dZT
       multiply premultiply multiplyMatrices fromArray
       identity identity_elements elements
       read default from_option Datatypes.id lookup list_lookup
       fmap list_fmap seq Nat.add Nat.mul
       nadd nsub nmul nneg ncos nsin].

Ltac sixteen_reals l Hlen :=
  do 16 (destruct l as [|? l]; [discriminate Hlen|]);
  destruct l; [|discriminate Hlen]; clear Hlen.

Ltac tuple_eq :=
  repeat (apply (f_equal2 pair)); lra.

(** * Properties *)

(** ** The matrix methods *)

Lemma multiplyMatrices_mat_mul (a b : Matrix4) :
  multiplyMatrices a b = mat_mul a b.
Proof. reflexivity. Qed.

Lemma multiplyMatrices_entry (a b : Matrix4) (r c : nat) :
  r < 4 -> c < 4 ->
  entry (multiplyMatrices a b) r c
  = sum4 (fun k => entry a r k * entry b k c)%num.
Proof.
  intros Hr Hc.
  destruct r as [|[|[|[|r]]]]; try lia;
    destruct c as [|[|[|[|c]]]]; try lia; reflexivity.
Qed.

Lemma fromArray_read (array : list number) (offset i : nat) :
  i < 16 -> read (elements (fromArray array offset)) i = read array (i + offset).
Proof.
  intros Hi. unfold fromArray, read; cbn [elements].
  rewrite list_lookup_fmap, lookup_seq_lt by lia. reflexivity.
Qed.

Lemma fromArray_length (array : list number) (offset : nat) :
  length (elements (fromArray array offset)) = 16.
Proof. reflexivity. Qed.

Lemma fromArray_block (array : list number) (b : nat) :
  16 * b + 16 <= length array ->
  fromArray array (16 * b) = mkMatrix4 (block b array).
Proof.
  intros Hlen. unfold fromArray, block. f_equal.
  apply list_eq. intros i.
  destruct (decide (i < 16)) as [Hi|Hi].
  - rewrite list_lookup_fmap, lookup_seq_lt by lia. cbn [fmap option_fmap option_map].
    rewrite lookup_take_lt, lookup_drop by lia. unfold read.
    replace (16 * b + i) with (0 + i + 16 * b) by lia.
    destruct (lookup_lt_is_Some_2 array (0 + i + 16 * b)) as [x Hx]; [lia|].
    rewrite Hx. reflexivity.
  - rewrite lookup_ge_None_2 by (rewrite length_fmap, length_seq; lia).
    rewrite lookup_ge_None_2; [reflexivity|].
    rewrite length_take. lia.
Qed.

Lemma plane_rotations (theta : number) :
  dXY theta = plane_rotation 0 1 theta
  /\ dYZ theta = plane_rotation 1 2 theta
  /\ dXZ theta = plane_rotation 0 2 theta
  /\ dXT theta = plane_rotation 0 3 theta
  /\ dYT theta = plane_rotation 1 3 theta
  /\ dZT theta = plane_rotation 2 3 theta.
Proof. repeat split; reflexivity. Qed.

(** In rows and columns: a plane rotation has [cos] twice on the
    diagonal, [sin] in row [b], column [a], and [- sin] in row [a],
    column [b]. *)
Lemma plane_rotation_entry (a b : nat) (theta : number) (r c : nat) :
  a < b < 4 -> r < 4 -> c < 4 ->
  entry (plane_rotation a b theta) r c
  = if decide (r = c /\ (r = a \/ r = b)) then ncos theta
    else if decide (r = b /\ c = a) then nsin theta
    else if decide (r = a /\ c = b) then (- nsin theta)%num
    else if decide (r = c) then Num 1 else Num 0.
Proof.
  intros Hab Hr Hc.
  assert (Ha : a = 0 \/ a = 1 \/ a = 2) by lia.
  assert (Hb : b = 1 \/ b = 2 \/ b = 3) by lia.
  assert (Hr' : r = 0 \/ r = 1 \/ r = 2 \/ r = 3) by lia.
  assert (Hc' : c = 0 \/ c = 1 \/ c = 2 \/ c = 3) by lia.
  destruct Ha as [-> | [-> | ->]]; destruct Hb as [-> | [-> | ->]]; try lia;
    destruct Hr' as [-> | [-> | [-> | ->]]];
    destruct Hc' as [-> | [-> | [-> | ->]]];
    reflexivity.
Qed.

(** C1. [updateMatrix4D] builds one elementary rotation per coordinate
    plane, each the identity with the block cos, sin, -sin, cos
    substituted at the two axes of the plane, and [matrix4D] becomes the
    product of the identity accumulator right-multiplied by them in the
    order xt, yt, zt, xy, yz, xz. *)
Theorem updateMatrix4D_composition (this : Object4D) :
  (forall theta : number,
      dXY theta = plane_rotation 0 1 theta
      /\ dYZ theta = plane_rotation 1 2 theta
      /\ dXZ theta = plane_rotation 0 2 theta
      /\ dXT theta = plane_rotation 0 3 theta
      /\ dYT theta = plane_rotation 1 3 theta
      /\ dZT theta = plane_rotation 2 3 theta)
  /\ matrix4D (updateMatrix4D this)
     = mat_mul
         (mat_mul
            (mat_mul
               (mat_mul
                  (mat_mul
                     (mat_mul identity (plane_rotation 0 3 (xt (rot this))))
                     (plane_rotation 1 3 (yt (rot this))))
                  (plane_rotation 2 3 (zt (rot this))))
               (plane_rotation 0 1 (xy (rot this))))
            (plane_rotation 1 2 (yz (rot this))))
         (plane_rotation 0 2 (xz (rot this))).
Proof.
  split; [exact plane_rotations|].
  unfold updateMatrix4D, set_matrix4D, multiply; simpl matrix4D.
  rewrite !multiplyMatrices_mat_mul.
  destruct (plane_rotations (xt (rot this))) as (_ & _ & _ & -> & _ & _).
  destruct (plane_rotations (yt (rot this))) as (_ & _ & _ & _ & -> & _).
  destruct (plane_rotations (zt (rot this))) as (_ & _ & _ & _ & _ & ->).
  destruct (plane_rotations (xy (rot this))) as (-> & _ & _ & _ & _ & _).
  destruct (plane_rotations (yz (rot this))) as (_ & -> & _ & _ & _ & _).
  destruct (plane_rotations (xz (rot this))) as (_ & _ & -> & _ & _ & _).
  reflexivity.
Qed.

(** ** All angles at zero: the matrix *)

Lemma cos_sin_zero :
  cos 0 = 1%R /\ sin 0 = 0%R /\ (- 0)%R = 0%R.
Proof. repeat split; [apply cos_0 | apply sin_0 | lra]. Qed.

Lemma rotations_at_zero :
  dXY (Num 0) = identity /\ dYZ (Num 0) = identity /\ dXZ (Num 0) = identity
  /\ dXT (Num 0) = identity /\ dYT (Num 0) = identity /\ dZT (Num 0) = identity.
Proof.
  destruct cos_sin_zero as (Hc & Hs & Hn).
  repeat split; eval_matrix; rewrite Hc, Hs, Hn; reflexivity.
Qed.

Lemma multiply_identity_identity : multiply identity identity = identity.
Proof. eval_matrix. unfold identity. repeat (f_equal; try lra). Qed.

Lemma updateMatrix4D_at_zero (this : Object4D) :
  rot this = rot_initial -> matrix4D (updateMatrix4D this) = identity.
Proof.
  intros Hrot. unfold updateMatrix4D, set_matrix4D; cbn [matrix4D].
  rewrite Hrot; cbn [xy xz yz xt yt zt rot_initial].
  destruct rotations_at_zero as (-> & -> & -> & -> & -> & ->).
  rewrite !multiply_identity_identity. reflexivity.
Qed.

(** ** Writing a matrix into a typed array *)

Lemma inserts_lookup (f : nat -> number) (off n : nat) :
  forall (s : nat) (array : list number) (j : nat),
    foldl (fun array k => <[off + k := f k]> array) array (seq s n) !! j
    = if decide (off + s <= j < off + s + n /\ j < length array)
      then Some (f (j - off))
      else array !! j.
Proof.
  induction n as [|n IH]; intros s array j; cbn [seq foldl].
  - case_decide; [lia | reflexivity].
  - rewrite IH, length_insert.
    destruct (decide (j = off + s)) as [->|Hne].
    + replace (off + s - off) with s by lia.
      repeat case_decide; try lia.
      * rewrite list_lookup_insert_eq by lia. reflexivity.
      * rewrite list_insert_ge by lia. reflexivity.
    + rewrite list_lookup_insert_ne by lia.
      repeat case_decide; try lia; reflexivity.
Qed.

Lemma toArray_lookup (m : Matrix4) (array : Float32Array) (offset j : nat) :
  toArray m array offset !! j
  = if decide (offset <= j < offset + 16 /\ j < length array)
    then Some (read (elements m) (j - offset))
    else array !! j.
Proof.
  unfold toArray. rewrite inserts_lookup.
  repeat case_decide; try lia; reflexivity.
Qed.

Lemma inserts_length (f : nat -> number) (off n : nat) :
  forall (s : nat) (array : list number),
    length (foldl (fun array k => <[off + k := f k]> array) array (seq s n))
    = length array.
Proof.
  induction n as [|n IH]; intros s array; cbn [seq foldl];
    [reflexivity | rewrite IH; apply length_insert].
Qed.

Lemma toArray_length (m : Matrix4) (array : Float32Array) (offset : nat) :
  length (toArray m array offset) = length array.
Proof. apply inserts_length. Qed.

(** ** The loop of [updateVertexes] *)

Section Loop.

Context (original : list number) (m : Matrix4).

Lemma updateVertexes_loop_length (fuel : nat) :
  forall (i : nat) (transformed : list number),
    length (updateVertexes_loop fuel i original transformed m)
    = length transformed.
Proof.
  induction fuel as [|fuel IH]; intros i transformed;
    cbn [updateVertexes_loop]; [reflexivity|].
  case_decide; [|reflexivity].
  rewrite IH. apply toArray_length.
Qed.

(** The invariant of the loop.  Entering an iteration at offset
    [16 * b] with enough fuel for the rest of the buffer, the loop ends
    with every index from [16 * b] on, whose block starts inside the
    original buffer, rewritten, and every other index as it was. *)
Lemma updateVertexes_loop_lookup (fuel : nat) :
  forall (b : nat) (transformed : list number) (j : nat),
    length original <= 16 * b + 16 * fuel ->
    updateVertexes_loop fuel (16 * b) original transformed m !! j
    = if decide (16 * b <= j /\ 16 * (j / 16) < length original
                 /\ j < length transformed)
      then Some (transformed_at original m j)
      else transformed !! j.
Proof.
  induction fuel as [|fuel IH]; intros b transformed j Hfuel;
    cbn [updateVertexes_loop].
  - case_decide as Hc; [lia | reflexivity].
  - case_decide as Hi.
    + replace (16 * b + 4 * 4) with (16 * S b) by lia.
      rewrite IH by lia. rewrite toArray_length, toArray_lookup.
      repeat case_decide; try lia; try reflexivity.
      f_equal. unfold transformed_at.
      replace (j / 16) with b by lia. reflexivity.
    + case_decide as Hc; [lia | reflexivity].
Qed.

(** Index [j] belongs to 4-vector [j / 4]; what is stored there is row
    [j mod 4] of the matrix against that 4-vector. *)
Lemma transformed_at_vertex (j : nat) :
  transformed_at original m j
  = sum4 (fun k =>
            entry m (j mod 4) k * read original (4 * (j / 4) + k))%num.
Proof.
  unfold transformed_at, premultiply.
  set (offset := 16 * (j / 16)).
  replace (j - offset) with (4 * ((j / 4) mod 4) + j mod 4) by lia.
  change (read (elements ?x) (4 * ?c + ?r)) with (entry x r c).
  rewrite multiplyMatrices_entry by lia.
  unfold sum4, entry.
  rewrite !fromArray_read by lia.
  replace (4 * ((j / 4) mod 4) + 0 + offset) with (4 * (j / 4) + 0) by lia.
  replace (4 * ((j / 4) mod 4) + 1 + offset) with (4 * (j / 4) + 1) by lia.
  replace (4 * ((j / 4) mod 4) + 2 + offset) with (4 * (j / 4) + 2) by lia.
  replace (4 * ((j / 4) mod 4) + 3 + offset) with (4 * (j / 4) + 3) by lia.
  reflexivity.
Qed.

End Loop.

Lemma read_lookup (array : list number) (i : nat) :
  i < length array -> array !! i = Some (read array i).
Proof.
  intros Hi. unfold read.
  destruct (lookup_lt_is_Some_2 array i Hi) as [x ->]. reflexivity.
Qed.

Lemma updateVertexes_lookup (this : Object4D) (j : nat) :
  transformedVertexes (updateVertexes this) !! j
  = if decide (16 * (j / 16) < length (vertexes this)
               /\ j < length (transformedVertexes this))
    then Some (transformed_at (vertexes this) (matrix4D this) j)
    else transformedVertexes this !! j.
Proof.
  unfold updateVertexes; cbn [transformedVertexes].
  pose proof (updateVertexes_loop_lookup (vertexes this) (matrix4D this)
                (length (vertexes this)) 0 (transformedVertexes this) j) as H.
  rewrite Nat.mul_0_r in H. rewrite H by lia.
  repeat case_decide; try lia; reflexivity.
Qed.

Lemma updateVertexes_length (this : Object4D) :
  length (transformedVertexes (updateVertexes this))
  = length (transformedVertexes this).
Proof. apply updateVertexes_loop_length. Qed.

(** The fuel handed to the loop is never what stops it: any larger
    amount gives the same buffer. *)
Lemma updateVertexes_loop_fuel (this : Object4D) (fuel : nat) :
  length (vertexes this) <= fuel ->
  updateVertexes_loop fuel 0 (vertexes this) (transformedVertexes this)
                      (matrix4D this)
  = transformedVertexes (updateVertexes this).
Proof.
  intros Hfuel. apply list_eq. intros j.
  rewrite updateVertexes_lookup.
  pose proof (updateVertexes_loop_lookup (vertexes this) (matrix4D this)
                fuel 0 (transformedVertexes this) j) as H.
  rewrite Nat.mul_0_r in H. rewrite H by lia.
  repeat case_decide; try lia; reflexivity.
Qed.

Lemma vertex_read (v k : nat) (buffer : list number) :
  k < 4 -> read (vertex v buffer) k = read buffer (4 * v + k).
Proof.
  intros Hk. unfold read, vertex.
  rewrite lookup_take_lt, lookup_drop by lia. reflexivity.
Qed.

Lemma vertex_length (v : nat) (buffer : list number) :
  4 * v + 4 <= length buffer -> length (vertex v buffer) = 4.
Proof. intros H. unfold vertex. rewrite length_take, length_drop. lia. Qed.

Lemma updateVertexes_vertex (this : Object4D) (v : nat) :
  length (transformedVertexes this) = length (vertexes this) ->
  4 * v + 4 <= length (vertexes this) ->
  vertex v (transformedVertexes (updateVertexes this))
  = mat_vec (matrix4D this) (vertex v (vertexes this)).
Proof.
  intros Hlen Hv. apply list_eq. intros i.
  destruct (decide (i < 4)) as [Hi|Hi].
  - unfold vertex at 1. rewrite lookup_take_lt, lookup_drop by lia.
    rewrite updateVertexes_lookup.
    case_decide as Hc; [|lia].
    rewrite transformed_at_vertex.
    unfold mat_vec. rewrite list_lookup_fmap, lookup_seq_lt by lia.
    cbn [fmap option_fmap option_map Nat.add].
    replace ((4 * v + i) mod 4) with i by lia.
    replace ((4 * v + i) / 4) with v by lia.
    unfold sum4. rewrite !vertex_read by lia. reflexivity.
  - rewrite !lookup_ge_None_2; [reflexivity | |].
    + unfold mat_vec. rewrite length_fmap, length_seq. lia.
    + unfold vertex. rewrite length_take. lia.
Qed.

(** C2 (amended).  [updateVertexes] takes each contiguous block of 16
    numbers of the original buffer as a 4x4 matrix in column-major order
    (the four 4-vectors are its four columns), left-multiplies it by
    [matrix4D] and writes the product, again column-major, into the same
    block of the transformed buffer; so every 4-vector [x] becomes
    [matrix4D x]. *)
Theorem updateVertexes_blocks (this : Object4D) (b : nat) :
  length (transformedVertexes this) = length (vertexes this) ->
  16 * b + 16 <= length (vertexes this) ->
  block b (transformedVertexes (updateVertexes this))
  = elements (mat_mul (matrix4D this) (mkMatrix4 (block b (vertexes this))))
  /\ forall c : nat, c < 4 ->
       vertex (4 * b + c) (transformedVertexes (updateVertexes this))
       = mat_vec (matrix4D this) (vertex (4 * b + c) (vertexes this)).
Proof.
  intros Hlen Hb. split.
  - rewrite <- multiplyMatrices_mat_mul, <- fromArray_block by lia.
    apply list_eq. intros i. unfold block.
    destruct (decide (i < 16)) as [Hi|Hi].
    + rewrite lookup_take_lt, lookup_drop by lia.
      rewrite updateVertexes_lookup.
      case_decide as Hc; [|lia].
      rewrite read_lookup by (cbn; lia).
      unfold transformed_at, premultiply.
      replace ((16 * b + i) / 16) with b by lia.
      replace (16 * b + i - 16 * b) with i by lia. reflexivity.
    + rewrite !lookup_ge_None_2; [reflexivity | cbn; lia |].
      rewrite length_take. lia.
  - intros c Hc. apply updateVertexes_vertex; lia.
Qed.

Lemma updateVertexes_blocks_witness :
  let this :=
    new_Object4D
      [ [Num 1; Num 0; Num 0; Num 0]; [Num 0; Num 1; Num 0; Num 0];
        [Num 0; Num 0; Num 1; Num 0]; [Num 0; Num 0; Num 0; Num 1] ] [] [] in
  block 0 (transformedVertexes (updateVertexes this))
  = elements (mat_mul (matrix4D this) (mkMatrix4 (block 0 (vertexes this))))
  /\ forall c : nat, c < 4 ->
       vertex (4 * 0 + c) (transformedVertexes (updateVertexes this))
       = mat_vec (matrix4D this) (vertex (4 * 0 + c) (vertexes this)).
Proof.
  intros this. apply (updateVertexes_blocks this 0); [reflexivity|].
  cbn [this new_Object4D vertexes new_Float32Array flat concat app length].
  lia.
Defined.

(** ** Well-formed objects

    Every object built from 4-vectors of reals is well formed, and stays
    so under every call. *)

Lemma well_formed_new (vertexes0 : list (list number))
    (edges0 faces0 : list (list Z)) :
  Forall (fun v => length v = 4 /\ Forall is_real v) vertexes0 ->
  well_formed (new_Object4D vertexes0 edges0 faces0).
Proof.
  intros Hall. unfold well_formed, new_Object4D, new_Float32Array, flat;
    cbn [vertexes transformedVertexes].
  split; [reflexivity|].
  induction Hall as [|v vs [Hlen Hreal] _ [IHmod IHreal]]; cbn [concat].
  - split; [reflexivity | constructor].
  - split; [rewrite length_app; lia | apply Forall_app; split; assumption].
Qed.

Lemma well_formed_step (this : Object4D) (c : call) :
  well_formed this -> well_formed (step this c).
Proof.
  intros (Hlen & Hmod & Hreal).
  destruct c; repeat split; try assumption.
  cbn [step]. rewrite updateVertexes_length. exact Hlen.
Qed.

Lemma well_formed_run (calls : list call) :
  forall this : Object4D, well_formed this -> well_formed (run calls this).
Proof.
  unfold run. induction calls as [|c calls IH]; intros this Hwf;
    cbn [foldl]; [assumption | apply IH, well_formed_step, Hwf].
Qed.

(** ** All angles zero *)

Lemma real_lookup (array : list number) (i : nat) :
  Forall is_real array -> i < length array ->
  exists x : R, array !! i = Some (Num x).
Proof.
  intros Hreal Hi.
  destruct (lookup_lt_is_Some_2 array i Hi) as [a Ha].
  pose proof (Forall_lookup_1 _ _ _ _ Hreal Ha) as Hr.
  destruct a as [x|]; [exists x; exact Ha | destruct Hr].
Qed.

Lemma identity_transformed_at (original : Float32Array) (j : nat) :
  Forall is_real original ->
  Nat.modulo (length original) 4 = 0 ->
  j < length original ->
  Some (transformed_at original identity j) = original !! j.
Proof.
  intros Hreal Hmod Hj.
  rewrite transformed_at_vertex.
  destruct (real_lookup original (4 * (j / 4) + 0) Hreal) as [x0 H0]; [lia|].
  destruct (real_lookup original (4 * (j / 4) + 1) Hreal) as [x1 H1]; [lia|].
  destruct (real_lookup original (4 * (j / 4) + 2) Hreal) as [x2 H2]; [lia|].
  destruct (real_lookup original (4 * (j / 4) + 3) Hreal) as [x3 H3]; [lia|].
  unfold sum4, read. rewrite H0, H1, H2, H3.
  assert (Hcase : j mod 4 = 0 \/ j mod 4 = 1 \/ j mod 4 = 2 \/ j mod 4 = 3)
    by lia.
  destruct Hcase as [Hr|[Hr|[Hr|Hr]]]; rewrite Hr;
    [ replace (original !! j) with (original !! (4 * (j / 4) + 0))
        by (f_equal; lia); rewrite H0
    | replace (original !! j) with (original !! (4 * (j / 4) + 1))
        by (f_equal; lia); rewrite H1
    | replace (original !! j) with (original !! (4 * (j / 4) + 2))
        by (f_equal; lia); rewrite H2
    | replace (original !! j) with (original !! (4 * (j / 4) + 3))
        by (f_equal; lia); rewrite H3 ];
    cbv [entry identity identity_elements elements read default from_option
         Datatypes.id lookup list_lookup Nat.mul Nat.add nadd nmul];
    do 2 f_equal; lra.
Qed.

(** C3.  With all six angles 0, [updateMatrix4D] leaves [matrix4D] equal
    to the identity, and [updateVertexes] then makes the transformed
    buffer equal to the original one, number for number. *)
Theorem zero_angles_identity (this : Object4D) :
  rot this = rot_initial ->
  well_formed this ->
  matrix4D (updateMatrix4D this) = identity
  /\ transformedVertexes (updateVertexes (updateMatrix4D this))
     = vertexes this.
Proof.
  intros Hrot (Hlen & Hmod & Hreal).
  pose proof (updateMatrix4D_at_zero this Hrot) as Hid.
  split; [exact Hid|].
  apply list_eq. intros j.
  rewrite updateVertexes_lookup, Hid.
  change (vertexes (updateMatrix4D this)) with (vertexes this).
  change (transformedVertexes (updateMatrix4D this))
    with (transformedVertexes this).
  case_decide as Hc.
  - apply identity_transformed_at; [assumption | assumption | lia].
  - rewrite !lookup_ge_None_2 by lia. reflexivity.
Qed.

Lemma zero_angles_identity_witness :
  matrix4D (updateMatrix4D
              (new_Object4D [[Num 1; Num 2; Num 3; Num 4]] [] [])) = identity
  /\ transformedVertexes
       (updateVertexes
          (updateMatrix4D (new_Object4D [[Num 1; Num 2; Num 3; Num 4]] [] [])))
     = vertexes (new_Object4D [[Num 1; Num 2; Num 3; Num 4]] [] []).
Proof.
  apply zero_angles_identity;
    [reflexivity | repeat split; repeat constructor].
Defined.

(** ** Construction *)

(** C10.  A freshly constructed [Object4D] has its six angles at 0, has
    the identity as [matrix4D], and has a transformed buffer equal to the
    original one, number for number and in length. *)
Theorem new_Object4D_initial (vertexes0 : list (list number))
    (edges0 faces0 : list (list Z)) :
  let this := new_Object4D vertexes0 edges0 faces0 in
  (xy (rot this) = Num 0 /\ xz (rot this) = Num 0 /\ yz (rot this) = Num 0
   /\ xt (rot this) = Num 0 /\ yt (rot this) = Num 0 /\ zt (rot this) = Num 0)
  /\ matrix4D this = identity
  /\ transformedVertexes this = vertexes this
  /\ length (transformedVertexes this) = length (vertexes this).
Proof. repeat split. Qed.

(** ** One plane at a time *)

Lemma multiply_identity_plane (p : Plane) (theta : R) :
  multiply identity (plane_matrix p (Num theta)) = plane_matrix p (Num theta)
  /\ multiply (plane_matrix p (Num theta)) identity
     = plane_matrix p (Num theta).
Proof.
  split; destruct p; unfold plane_matrix; eval_matrix; matrix_eq lra.
Qed.

Lemma single_plane_matrix (this : Object4D) (p : Plane) (theta : R) :
  rot this = set_rot p (Num theta) rot_initial ->
  matrix4D (updateMatrix4D this) = plane_matrix p (Num theta).
Proof.
  intros Hrot. unfold updateMatrix4D, set_matrix4D; cbn [matrix4D].
  rewrite Hrot.
  destruct rotations_at_zero as (Hxy & Hyz & Hxz & Hxt & Hyt & Hzt).
  destruct p; cbn [set_rot rot_initial xy xz yz xt yt zt];
    rewrite ?Hxy, ?Hyz, ?Hxz, ?Hxt, ?Hyt, ?Hzt;
    try change (dXY (Num theta)) with (plane_matrix XY (Num theta));
    try change (dXZ (Num theta)) with (plane_matrix XZ (Num theta));
    try change (dYZ (Num theta)) with (plane_matrix YZ (Num theta));
    try change (dXT (Num theta)) with (plane_matrix XT (Num theta));
    try change (dYT (Num theta)) with (plane_matrix YT (Num theta));
    try change (dZT (Num theta)) with (plane_matrix ZT (Num theta));
    repeat first
      [ rewrite multiply_identity_identity
      | rewrite (proj1 (multiply_identity_plane _ theta))
      | rewrite (proj2 (multiply_identity_plane _ theta)) ];
    reflexivity.
Qed.

Lemma plane_matrix_inverse (p : Plane) (theta : R) :
  multiply (plane_matrix p (Num theta)) (plane_matrix p (Num (- theta)))
  = identity.
Proof.
  pose proof (sin2_cos2 theta) as Hsc. unfold Rsqr in Hsc.
  destruct p; unfold plane_matrix; eval_matrix;
    rewrite cos_neg, sin_neg;
    generalize dependent (cos theta); generalize dependent (sin theta);
    intros s c Hsc; matrix_eq nra.
Qed.

(** C8.  From all angles 0, rotating one plane by [theta] and then by
    [- theta], recomputing [matrix4D] after each, brings [matrix4D] back to
    the identity; and the two single-plane transforms, for [theta] and for
    [- theta], multiply to the identity. *)
Theorem rotate_there_and_back (this : Object4D) (p : Plane) (theta : R) :
  rot this = rot_initial ->
  let there := updateMatrix4D (rotateBy p (Num theta) this) in
  let back := updateMatrix4D (rotateBy p (Num (- theta)) there) in
  matrix4D back = identity
  /\ multiply (matrix4D there)
              (matrix4D (updateMatrix4D (setAngle p (Num (- theta)) this)))
     = identity.
Proof.
  intros Hrot there back. split.
  - apply updateMatrix4D_at_zero.
    subst there. unfold rotateBy, setAngle, updateMatrix4D, set_matrix4D;
      cbn [rot]. rewrite Hrot.
    destruct p; cbn [getAngle set_rot rot_initial xy xz yz xt yt zt nadd];
      unfold rot_initial; repeat f_equal; lra.
  - subst there.
    rewrite (single_plane_matrix _ p (0 + theta)),
            (single_plane_matrix _ p (- theta)).
    + replace (0 + theta)%R with theta by lra. apply plane_matrix_inverse.
    + unfold setAngle; cbn [rot]. rewrite Hrot. reflexivity.
    + unfold rotateBy, setAngle; cbn [rot]. rewrite Hrot.
      destruct p; reflexivity.
Qed.

Lemma rotate_there_and_back_witness :
  rot (new_Object4D [] [] []) = rot_initial
  /\ matrix4D
       (updateMatrix4D
          (rotateBy XT (Num (- 1))
             (updateMatrix4D (rotateBy XT (Num 1) (new_Object4D [] [] [])))))
     = identity
  /\ multiply
       (matrix4D (updateMatrix4D (rotateBy XT (Num 1) (new_Object4D [] [] []))))
       (matrix4D
          (updateMatrix4D (setAngle XT (Num (- 1)) (new_Object4D [] [] []))))
     = identity.
Proof.
  split; [reflexivity|].
  exact (rotate_there_and_back (new_Object4D [] [] []) XT 1 eq_refl).
Defined.

(** ** What the two update methods touch *)

Lemma step_vertexes (this : Object4D) (c : call) :
  vertexes (step this c) = vertexes this.
Proof. destruct c; reflexivity. Qed.

Lemma run_vertexes (calls : list call) :
  forall this : Object4D, vertexes (run calls this) = vertexes this.
Proof.
  unfold run. induction calls as [|c calls IH]; intros this; cbn [foldl];
    [reflexivity | rewrite IH; apply step_vertexes].
Qed.

Lemma step_update_frame (this : Object4D) (c : call) :
  is_update c = true ->
  rot (step this c) = rot this
  /\ topology (edges (step this c)) = topology (edges this)
  /\ topology (mesh (step this c)) = topology (mesh this).
Proof. destruct c; [discriminate | |]; intros _; repeat split. Qed.

Lemma run_update_frame (calls : list call) :
  forall this : Object4D,
    Forall (fun c => is_update c = true) calls ->
    rot (run calls this) = rot this
    /\ topology (edges (run calls this)) = topology (edges this)
    /\ topology (mesh (run calls this)) = topology (mesh this).
Proof.
  unfold run. induction calls as [|c calls IH]; intros this Hall;
    cbn [foldl]; [repeat split|].
  apply Forall_cons in Hall as [Hc Hall].
  destruct (IH (step this c) Hall) as (-> & -> & ->).
  apply step_update_frame, Hc.
Qed.

(** C9 (amended).  Whatever calls are made and whatever the angles are,
    [vertexes] is left unchanged, and a sequence of calls to
    [updateMatrix4D] and [updateVertexes] leaves the angles and the index
    lists of the children unchanged as well; [updateVertexes] modifies
    only the transformed buffer and the children's dirty flags, and
    [updateMatrix4D] modifies only [matrix4D]. *)
Theorem vertexes_never_modified (calls : list call) (this : Object4D) :
  vertexes (run calls this) = vertexes this
  /\ (Forall (fun c => is_update c = true) calls ->
      rot (run calls this) = rot this
      /\ topology (edges (run calls this)) = topology (edges this)
      /\ topology (mesh (run calls this)) = topology (mesh this))
  /\ only_transformed_and_flags this (updateVertexes this)
  /\ only_matrix4D this (updateMatrix4D this).
Proof.
  split; [apply run_vertexes|].
  split; [apply run_update_frame|].
  split; repeat split.
Qed.

(** C9 as stated fails: with the xy slider at pi, one call of
    [updateMatrix4D] on a new object modifies [matrix4D], which is neither
    the transformed buffer nor a dirty flag. *)
Lemma updateMatrix4D_modifies_matrix4D :
  let this := setAngle XY (Num PI) (new_Object4D [] [] []) in
  Forall (fun c => is_update c = true) [UpdateMatrix4D]
  /\ ~ only_transformed_and_flags this (run [UpdateMatrix4D] this).
Proof.
  intros this. split; [repeat constructor|].
  intros (_ & _ & Hm & _).
  cbn [run foldl step] in Hm.
  rewrite (single_plane_matrix this XY PI) in Hm by reflexivity.
  apply (f_equal (fun m => read (elements m) 0)) in Hm.
  cbv [plane_matrix dXY fromArray elements read default from_option
       Datatypes.id lookup list_lookup fmap list_fmap seq Nat.add
       ncos this setAngle matrix4D new_Object4D identity_elements] in Hm.
  injection Hm as Hm. rewrite cos_PI in Hm. lra.
Qed.

(** ** The block transform is not the row-major one *)

Lemma quarter_turn : cos (PI / 2) = 0%R /\ sin (PI / 2) = 1%R.
Proof. split; [apply cos_PI2 | apply sin_PI2]. Qed.

(** C2 as stated fails: take the single block whose first 4-vector is
    (1,0,0,0) and the others zero, and a quarter turn in the xy plane.
    [updateVertexes] stores 1 at index 1; reading the block row-major and
    left-multiplying by Transform4D stores 0 there, whichever way the
    coefficients of Transform4D are read off [elements]. *)
Lemma updateVertexes_not_rowmajor :
  let this :=
    updateMatrix4D
      (setAngle XY (Num (PI / 2))
         (new_Object4D
            [ [Num 1; Num 0; Num 0; Num 0]; [Num 0; Num 0; Num 0; Num 0];
              [Num 0; Num 0; Num 0; Num 0]; [Num 0; Num 0; Num 0; Num 0] ]
            [] [])) in
  transformedVertexes (updateVertexes this)
  <> updateVertexes_rowmajor (entry (matrix4D this)) (vertexes this)
  /\ transformedVertexes (updateVertexes this)
     <> updateVertexes_rowmajor (entry_rowmajor (matrix4D this))
                                (vertexes this).
Proof.
  intros this.
  assert (Hm : matrix4D this = dXY (Num (PI / 2))).
  { apply (single_plane_matrix _ XY). reflexivity. }
  destruct quarter_turn as (Hc & Hs).
  assert (Hcode : transformedVertexes (updateVertexes this) !! 1
                  = Some (Num 1)).
  { rewrite updateVertexes_lookup.
    case_decide as Hd; [|exfalso; apply Hd; cbn; lia].
    rewrite transformed_at_vertex, Hm.
    cbv [sum4 entry dXY fromArray elements read default from_option
         Datatypes.id lookup list_lookup fmap list_fmap seq Nat.add Nat.mul
         Nat.modulo Nat.div Nat.divmod fst snd Nat.sub
         this updateMatrix4D set_matrix4D setAngle new_Object4D vertexes
         new_Float32Array flat concat app
         ncos nsin nneg nadd nmul].
    rewrite Hc, Hs. do 2 f_equal. lra. }
  split; intros Heq; rewrite Heq in Hcode; rewrite Hm in Hcode;
    cbv [updateVertexes_rowmajor rowmajor_left_product block sum4
         entry entry_rowmajor dXY fromArray elements read default
         from_option Datatypes.id lookup list_lookup fmap list_fmap seq
         Nat.add Nat.mul Nat.modulo Nat.div Nat.divmod fst snd Nat.sub
         this updateMatrix4D set_matrix4D setAngle new_Object4D vertexes
         new_Float32Array flat concat app length take drop
         ncos nsin nneg nadd nmul] in Hcode;
    injection Hcode as Hcode; rewrite ?Hc, ?Hs in Hcode; lra.
Qed.

(** ** The hyperbox generators *)

Lemma vert_of_bits :
  Forall (fun i =>
            Forall (fun dir => at_dir (vert_of i) dir = Z.b2z (Z.testbit i dir))
                   (seqZ 0 4))
         (seqZ 0 16).
Proof. vm_compute. repeat constructor. Qed.

(** [vert[dir]] is bit [dir] of [i]. *)
Lemma vert_of_testbit (i dir : Z) :
  (0 <= i < 16)%Z -> (0 <= dir < 4)%Z ->
  at_dir (vert_of i) dir = Z.b2z (Z.testbit i dir).
Proof.
  intros Hi Hdir.
  pose proof vert_of_bits as H.
  rewrite Forall_forall in H. specialize (H i).
  rewrite Forall_forall in H. apply H; apply elem_of_seqZ; lia.
Qed.

(** The divisions in [vert_of] leave no remainder. *)
Lemma vert_quotients_exact (i : Z) :
  (0 <= i < 16)%Z ->
  Z.rem (Z.rem i 4 - Z.rem i 2) 2 = 0%Z
  /\ Z.rem (Z.rem i 8 - Z.rem i 4) 4 = 0%Z
  /\ Z.rem (Z.rem i 16 - Z.rem i 8) 8 = 0%Z.
Proof.
  intros Hi.
  assert (H : Forall (fun i =>
                        Z.rem (Z.rem i 4 - Z.rem i 2) 2 = 0%Z
                        /\ Z.rem (Z.rem i 8 - Z.rem i 4) 4 = 0%Z
                        /\ Z.rem (Z.rem i 16 - Z.rem i 8) 8 = 0%Z)
                     (seqZ 0 16))
    by (vm_compute; repeat constructor).
  rewrite Forall_forall in H. apply H, elem_of_seqZ. lia.
Qed.

Lemma dir_range (dir : Z) :
  dir ∈ [0%Z; 1%Z; 2%Z; 3%Z] <-> (0 <= dir < 4)%Z.
Proof.
  rewrite !elem_of_cons, elem_of_nil. lia.
Qed.

(** The two nested loops of [hyperboxEdges], as a comprehension. *)
Lemma hyperboxEdges_comprehension :
  hyperboxEdges
  = i ← seqZ 0 16; dir ← [0%Z; 1%Z; 2%Z; 3%Z];
    if decide (at_dir (vert_of i) dir = 0%Z)
    then [[i; (i + 2 ^ dir)%Z]] else [].
Proof. vm_compute. reflexivity. Qed.

Lemma hyperboxEdges_elem (e : list Z) :
  e ∈ hyperboxEdges
  <-> exists i dir : Z,
        (0 <= i < 16)%Z /\ (0 <= dir < 4)%Z
        /\ Z.testbit i dir = false /\ e = [i; (i + 2 ^ dir)%Z].
Proof.
  rewrite hyperboxEdges_comprehension, list_elem_of_bind. split.
  - intros (i & He & Hi).
    apply list_elem_of_bind in He as (dir & He & Hdir).
    apply elem_of_seqZ in Hi. apply dir_range in Hdir.
    exists i, dir. case_decide as Hbit.
    + apply list_elem_of_singleton in He.
      rewrite vert_of_testbit in Hbit by lia.
      destruct (Z.testbit i dir); [discriminate|].
      repeat split; try lia; assumption.
    + apply elem_of_nil in He. destruct He.
  - intros (i & dir & Hi & Hdir & Hbit & ->).
    exists i. split; [|apply elem_of_seqZ; lia].
    apply list_elem_of_bind. exists dir. split; [|apply dir_range; lia].
    rewrite decide_True; [apply list_elem_of_singleton; reflexivity|].
    rewrite vert_of_testbit, Hbit by lia. reflexivity.
Qed.

(** Adding [2 ^ dir] to an index whose bit [dir] is clear flips that bit
    and no other. *)
Lemma add_pow2_flips_one_bit (i dir : Z) :
  (0 <= dir)%Z -> Z.testbit i dir = false ->
  forall k : Z, (0 <= k)%Z ->
    Z.testbit i k <> Z.testbit (i + 2 ^ dir) k <-> k = dir.
Proof.
  intros Hdir Hbit k Hk.
  assert (Hland : Z.land i (2 ^ dir) = 0%Z).
  { apply Z.bits_inj'. intros n Hn.
    rewrite Z.land_spec, Z.pow2_bits_eqb, Z.bits_0 by lia.
    destruct (Z.eqb_spec dir n) as [<-|_];
      [rewrite Hbit; reflexivity | apply andb_false_r]. }
  rewrite (Z.add_nocarry_lxor _ _ Hland), Z.lxor_spec,
    Z.pow2_bits_eqb by lia.
  destruct (Z.eqb_spec dir k) as [<-|Hne].
  - rewrite Hbit. split; [reflexivity | discriminate].
  - rewrite xorb_false_r. split; [congruence | intros ->; congruence].
Qed.

(** C5.  [hyperboxEdges] holds the edge [i, i + 2^dir] for exactly the
    vertex indices [i] in [0,16) and axes [dir] in {0,1,2,3} with bit
    [dir] of [i] equal to 0, each once; hence the two ends of every edge
    differ in exactly one bit. *)
Theorem hyperboxEdges_characterisation :
  (forall e : list Z,
      e ∈ hyperboxEdges
      <-> exists i dir : Z,
            (0 <= i < 16)%Z /\ (0 <= dir < 4)%Z
            /\ Z.testbit i dir = false /\ e = [i; (i + 2 ^ dir)%Z])
  /\ NoDup hyperboxEdges
  /\ (forall a b : Z,
         [a; b] ∈ hyperboxEdges ->
         exists d : Z,
           (0 <= d)%Z
           /\ forall k : Z, (0 <= k)%Z ->
                Z.testbit a k <> Z.testbit b k <-> k = d).
Proof.
  split; [exact hyperboxEdges_elem|]. split.
  - apply (bool_decide_unpack _). vm_compute. reflexivity.
  - intros a b Hab.
    apply hyperboxEdges_elem in Hab
      as (i & dir & Hi & Hdir & Hbit & Heq).
    injection Heq as -> ->.
    exists dir. split; [lia|].
    apply add_pow2_flips_one_bit; [lia | assumption].
Qed.

(** C7.  Every index in an edge of [hyperboxEdges] and in a triangle of
    [hypercubeFaces] lies in [0,16), the index range of the 16 vertices. *)
Theorem indices_are_vertices :
  Forall (Forall (fun v : Z => (0 <= v < 16)%Z)) hyperboxEdges
  /\ Forall (Forall (fun v : Z => (0 <= v < 16)%Z)) hypercubeFaces
  /\ forall lx ly lz lt : number,
       length (hyperboxVertexes lx ly lz lt) = 16.
Proof.
  split; [|split].
  - apply (bool_decide_unpack _). vm_compute. reflexivity.
  - apply (bool_decide_unpack _). vm_compute. reflexivity.
  - intros. reflexivity.
Qed.

(** C4.  Vertex [i] of [hyperboxVertexes] has, on each axis, minus half
    the edge length when the bit of that axis in [i] is 0 and plus half of
    it when the bit is 1 (bit 0 for x, 1 for y, 2 for z, 3 for t); with
    lengths 2, 4, 6, 8 vertex 0 is (-1,-2,-3,-4) and vertex 15 is
    (1,2,3,4). *)
Theorem hyperboxVertexes_coordinates (lx ly lz lt : R) (i : nat) :
  i < 16 ->
  hyperboxVertexes (Num lx) (Num ly) (Num lz) (Num lt) !! i
  = Some [ half_length (Nat.testbit i 0) lx;
           half_length (Nat.testbit i 1) ly;
           half_length (Nat.testbit i 2) lz;
           half_length (Nat.testbit i 3) lt ]
  /\ hyperboxVertexes (Num 2) (Num 4) (Num 6) (Num 8) !! 0
     = Some [Num (-1); Num (-2); Num (-3); Num (-4)]
  /\ hyperboxVertexes (Num 2) (Num 4) (Num 6) (Num 8) !! 15
     = Some [Num 1; Num 2; Num 3; Num 4].
Proof.
  intros Hi. split; [|split].
  - do 16 (destruct i as [|i];
           [cbv - [IZR Rdiv Rminus Rmult Ropp]; vertex_eq|]).
    lia.
  - cbv - [IZR Rdiv Rminus Rmult Ropp]; vertex_eq.
  - cbv - [IZR Rdiv Rminus Rmult Ropp]; vertex_eq.
Qed.

Lemma hyperboxVertexes_coordinates_witness :
  hyperboxVertexes (Num 2) (Num 4) (Num 6) (Num 8) !! 5
  = Some [ half_length (Nat.testbit 5 0) 2; half_length (Nat.testbit 5 1) 4;
           half_length (Nat.testbit 5 2) 6; half_length (Nat.testbit 5 3) 8 ].
Proof.
  apply (hyperboxVertexes_coordinates 2 4 6 8 5). lia.
Defined.

(** C6.  With all four edge lengths 1 the generators give exactly 16
    vertices, 32 edges and 48 triangles, and every coordinate of every
    vertex is +0.5 or -0.5. *)
Theorem unit_hypercube_counts :
  length (hyperboxVertexes (Num 1) (Num 1) (Num 1) (Num 1)) = 16
  /\ length hyperboxEdges = 32
  /\ length hypercubeFaces = 48
  /\ Forall (fun e => length e = 2) hyperboxEdges
  /\ Forall (fun f => length f = 3) hypercubeFaces
  /\ Forall (Forall (fun x => x = Num 0.5 \/ x = Num (- 0.5)))
            (hyperboxVertexes (Num 1) (Num 1) (Num 1) (Num 1)).
Proof.
  split; [reflexivity|]. split; [vm_compute; reflexivity|].
  split; [vm_compute; reflexivity|].
  split; [vm_compute; repeat constructor|].
  split; [vm_compute; repeat constructor|].
  cbv - [IZR Rdiv Rminus Rmult Ropp].
  repeat (apply List.Forall_cons;
          [repeat (apply List.Forall_cons; [half_unit|]);
           apply List.Forall_nil|]).
  apply List.Forall_nil.
Qed.

(** * Further properties *)

(** ** What an elementary rotation does to a vector *)

Lemma plane_matrix_action (p : Plane) (theta : R) (x : vec4) :
  mat_vec (plane_matrix p (Num theta)) (inj4 x)
  = inj4 (rotate_coords p theta x).
Proof.
  destruct x as [[[x0 x1] x2] x3].
  destruct p; eval_mat_vec; cbv [rotate_coords]; vec_eq lra.
Qed.

Lemma rotate_pair (s c u v : R) :
  (s * s + c * c = 1 ->
   (c * u - s * v) * (c * u - s * v) + (s * u + c * v) * (s * u + c * v)
   = u * u + v * v)%R.
Proof.
  intros H.
  replace ((c * u - s * v) * (c * u - s * v)
           + (s * u + c * v) * (s * u + c * v))%R
    with ((s * s + c * c) * (u * u + v * v))%R by ring.
  rewrite H. ring.
Qed.

Lemma rotate_coords_dist2 (p : Plane) (theta : R) (x y : vec4) :
  dist2 (rotate_coords p theta x) (rotate_coords p theta y) = dist2 x y.
Proof.
  destruct x as [[[x0 x1] x2] x3], y as [[[y0 y1] y2] y3].
  pose proof (sin2_cos2 theta) as Hsc. unfold Rsqr in Hsc.
  destruct p; cbv [rotate_coords dist2];
    generalize dependent (cos theta); generalize dependent (sin theta);
    intros s c Hsc;
    [ pose proof (rotate_pair s c (x0 - y0) (x1 - y1) Hsc)
    | pose proof (rotate_pair s c (x0 - y0) (x2 - y2) Hsc)
    | pose proof (rotate_pair s c (x1 - y1) (x2 - y2) Hsc)
    | pose proof (rotate_pair s c (x0 - y0) (x3 - y3) Hsc)
    | pose proof (rotate_pair s c (x1 - y1) (x3 - y3) Hsc)
    | pose proof (rotate_pair s c (x2 - y2) (x3 - y3) Hsc) ];
    nra.
Qed.

(** ** Matrices of reals *)

Lemma real_matrix_identity : real_matrix identity.
Proof.
  exists [1; 0; 0; 0; 0; 1; 0; 0; 0; 0; 1; 0; 0; 0; 0; 1]%R.
  split; reflexivity.
Qed.

Lemma real_matrix_plane (p : Plane) (theta : R) :
  real_matrix (plane_matrix p (Num theta)).
Proof.
  destruct p;
    [ exists [cos theta; sin theta; 0; 0; - sin theta; cos theta; 0; 0;
              0; 0; 1; 0; 0; 0; 0; 1]%R
    | exists [cos theta; 0; sin theta; 0; 0; 1; 0; 0;
              - sin theta; 0; cos theta; 0; 0; 0; 0; 1]%R
    | exists [1; 0; 0; 0; 0; cos theta; sin theta; 0;
              0; - sin theta; cos theta; 0; 0; 0; 0; 1]%R
    | exists [cos theta; 0; 0; sin theta; 0; 1; 0; 0;
              0; 0; 1; 0; - sin theta; 0; 0; cos theta]%R
    | exists [1; 0; 0; 0; 0; cos theta; 0; sin theta;
              0; 0; 1; 0; 0; - sin theta; 0; cos theta]%R
    | exists [1; 0; 0; 0; 0; 1; 0; 0;
              0; 0; cos theta; sin theta; 0; 0; - sin theta; cos theta]%R ];
    split; reflexivity.
Qed.

Lemma real_matrix_multiply (a b : Matrix4) :
  real_matrix a -> real_matrix b -> real_matrix (multiply a b).
Proof.
  intros (la & Hla & Ha) (lb & Hlb & Hb).
  destruct a as [ae], b as [be]; cbn [elements] in Ha, Hb; subst ae be.
  sixteen_reals la Hla. sixteen_reals lb Hlb.
  eexists [_; _; _; _; _; _; _; _; _; _; _; _; _; _; _; _].
  split; [reflexivity|]. eval_mat_vec. reflexivity.
Qed.

(** Applying a product is applying the right factor, then the left one. *)
Lemma mat_vec_multiply (a b : Matrix4) (x : vec4) :
  real_matrix a -> real_matrix b ->
  mat_vec (multiply a b) (inj4 x) = mat_vec a (mat_vec b (inj4 x)).
Proof.
  intros (la & Hla & Ha) (lb & Hlb & Hb).
  destruct a as [ae], b as [be]; cbn [elements] in Ha, Hb; subst ae be.
  sixteen_reals la Hla. sixteen_reals lb Hlb.
  destruct x as [[[x0 x1] x2] x3].
  eval_mat_vec. vec_eq ltac:(ring).
Qed.

Lemma isometry_identity : isometry identity.
Proof.
  exists (fun x => x). split; [|reflexivity].
  intros [[[x0 x1] x2] x3]. eval_mat_vec. vec_eq lra.
Qed.

Lemma isometry_plane (p : Plane) (theta : R) :
  isometry (plane_matrix p (Num theta)).
Proof.
  exists (rotate_coords p theta). split.
  - apply plane_matrix_action.
  - apply rotate_coords_dist2.
Qed.

Lemma isometry_multiply (a b : Matrix4) :
  real_matrix a -> real_matrix b ->
  isometry a -> isometry b -> isometry (multiply a b).
Proof.
  intros Ha Hb (f & Hf & Hfd) (g & Hg & Hgd).
  exists (fun x => f (g x)). split.
  - intros x. rewrite mat_vec_multiply, Hg, Hf by assumption. reflexivity.
  - intros x y. rewrite Hfd, Hgd. reflexivity.
Qed.

Lemma updateMatrix4D_matrix (this : Object4D) :
  matrix4D (updateMatrix4D this)
  = multiply
      (multiply
         (multiply
            (multiply
               (multiply
                  (multiply identity (plane_matrix XT (xt (rot this))))
                  (plane_matrix YT (yt (rot this))))
               (plane_matrix ZT (zt (rot this))))
            (plane_matrix XY (xy (rot this))))
         (plane_matrix YZ (yz (rot this))))
      (plane_matrix XZ (xz (rot this))).
Proof. reflexivity. Qed.

Lemma updateMatrix4D_real_isometry (this : Object4D) :
  real_angles (rot this) ->
  real_matrix (matrix4D (updateMatrix4D this))
  /\ isometry (matrix4D (updateMatrix4D this)).
Proof.
  intros (Hxy & Hxz & Hyz & Hxt & Hyt & Hzt).
  rewrite updateMatrix4D_matrix.
  destruct (xy (rot this)) as [axy|]; [|destruct Hxy].
  destruct (xz (rot this)) as [axz|]; [|destruct Hxz].
  destruct (yz (rot this)) as [ayz|]; [|destruct Hyz].
  destruct (xt (rot this)) as [axt|]; [|destruct Hxt].
  destruct (yt (rot this)) as [ayt|]; [|destruct Hyt].
  destruct (zt (rot this)) as [azt|]; [|destruct Hzt].
  pose proof real_matrix_identity as R0.
  pose proof isometry_identity as I0.
  pose proof (real_matrix_multiply _ _ R0 (real_matrix_plane XT axt)) as R1.
  pose proof (isometry_multiply _ _ R0 (real_matrix_plane XT axt)
                I0 (isometry_plane XT axt)) as I1.
  pose proof (real_matrix_multiply _ _ R1 (real_matrix_plane YT ayt)) as R2.
  pose proof (isometry_multiply _ _ R1 (real_matrix_plane YT ayt)
                I1 (isometry_plane YT ayt)) as I2.
  pose proof (real_matrix_multiply _ _ R2 (real_matrix_plane ZT azt)) as R3.
  pose proof (isometry_multiply _ _ R2 (real_matrix_plane ZT azt)
                I2 (isometry_plane ZT azt)) as I3.
  pose proof (real_matrix_multiply _ _ R3 (real_matrix_plane XY axy)) as R4.
  pose proof (isometry_multiply _ _ R3 (real_matrix_plane XY axy)
                I3 (isometry_plane XY axy)) as I4.
  pose proof (real_matrix_multiply _ _ R4 (real_matrix_plane YZ ayz)) as R5.
  pose proof (isometry_multiply _ _ R4 (real_matrix_plane YZ ayz)
                I4 (isometry_plane YZ ayz)) as I5.
  split.
  - exact (real_matrix_multiply _ _ R5 (real_matrix_plane XZ axz)).
  - exact (isometry_multiply _ _ R5 (real_matrix_plane XZ axz)
             I5 (isometry_plane XZ axz)).
Qed.

(** ** The slider callback *)

Lemma vertex_in_range (v : nat) (buffer : list number) (x : vec4) :
  vertex v buffer = inj4 x -> 4 * v + 4 <= length buffer.
Proof.
  intros H. apply (f_equal length) in H.
  destruct x as [[[x0 x1] x2] x3]. unfold vertex in H.
  rewrite length_take, length_drop in H. cbn [inj4 length] in H. lia.
Qed.

Lemma onChangeFunc_vertex (this : Object4D) (v : nat) :
  length (transformedVertexes this) = length (vertexes this) ->
  4 * v + 4 <= length (vertexes this) ->
  vertex v (transformedVertexes (onChangeFunc this))
  = mat_vec (matrix4D (updateMatrix4D this)) (vertex v (vertexes this)).
Proof.
  intros Hlen Hv. unfold onChangeFunc.
  apply (updateVertexes_vertex (updateMatrix4D this)); assumption.
Qed.

(** X1.  With one slider at [theta] and the others at 0, the callback
    turns every 4-vector of the buffer by [theta] in that slider's plane,
    from the plane's first axis towards its second, and keeps its other
    two coordinates. *)
Theorem slider_rotates_plane (this : Object4D) (p : Plane) (theta : R)
    (v : nat) (x : vec4) :
  rot this = set_rot p (Num theta) rot_initial ->
  length (transformedVertexes this) = length (vertexes this) ->
  vertex v (vertexes this) = inj4 x ->
  vertex v (transformedVertexes (onChangeFunc this))
  = inj4 (rotate_coords p theta x).
Proof.
  intros Hrot Hlen Hx.
  rewrite onChangeFunc_vertex
    by (try assumption; apply (vertex_in_range _ _ x), Hx).
  rewrite (single_plane_matrix this p theta Hrot), Hx.
  apply plane_matrix_action.
Qed.

Lemma slider_rotates_plane_witness :
  vertex 0
    (transformedVertexes
       (onChangeFunc
          (setAngle XY (Num 1)
             (new_Object4D [[Num 1; Num 2; Num 3; Num 4]] [] []))))
  = inj4 (rotate_coords XY 1 (1, 2, 3, 4)%R).
Proof.
  apply (slider_rotates_plane _ XY 1 0 (1, 2, 3, 4)%R); reflexivity.
Defined.

(** X2.  Whatever the six angles, as long as none is [NaN], the callback
    moves the 4-vectors of the buffer rigidly: the distance between any
    two of them after the call is the distance between the originals. *)
Theorem rotation_keeps_distances (this : Object4D) (u v : nat) (x y : vec4) :
  real_angles (rot this) ->
  length (transformedVertexes this) = length (vertexes this) ->
  vertex u (vertexes this) = inj4 x ->
  vertex v (vertexes this) = inj4 y ->
  exists x' y' : vec4,
    vertex u (transformedVertexes (onChangeFunc this)) = inj4 x'
    /\ vertex v (transformedVertexes (onChangeFunc this)) = inj4 y'
    /\ dist2 x' y' = dist2 x y.
Proof.
  intros Hreal Hlen Hx Hy.
  destruct (updateMatrix4D_real_isometry this Hreal) as (_ & f & Hf & Hd).
  exists (f x), (f y).
  rewrite !onChangeFunc_vertex
    by (try assumption;
        first [apply (vertex_in_range _ _ x), Hx
              |apply (vertex_in_range _ _ y), Hy]).
  rewrite Hx, Hy, !Hf. repeat split. apply Hd.
Qed.

Lemma rotation_keeps_distances_witness :
  exists x' y' : vec4,
    vertex 0
      (transformedVertexes
         (onChangeFunc
            (setAngle XY (Num 1)
               (setAngle ZT (Num 2)
                  (new_Object4D
                     [[Num 1; Num 2; Num 3; Num 4];
                      [Num 0; Num 1; Num 0; Num 1]] [] [])))))
    = inj4 x'
    /\ vertex 1
         (transformedVertexes
            (onChangeFunc
               (setAngle XY (Num 1)
                  (setAngle ZT (Num 2)
                     (new_Object4D
                        [[Num 1; Num 2; Num 3; Num 4];
                         [Num 0; Num 1; Num 0; Num 1]] [] [])))))
       = inj4 y'
    /\ dist2 x' y' = dist2 (1, 2, 3, 4)%R (0, 1, 0, 1)%R.
Proof.
  apply (rotation_keeps_distances _ 0 1 (1, 2, 3, 4)%R (0, 1, 0, 1)%R);
    [repeat split | reflexivity | reflexivity | reflexivity].
Defined.

(** ** How the elementary rotations compose *)

(** X3.  Two rotations of the same plane multiply to the rotation by the
    sum of their angles. *)
Theorem plane_matrix_add (p : Plane) (alpha beta : R) :
  multiply (plane_matrix p (Num alpha)) (plane_matrix p (Num beta))
  = plane_matrix p (Num (alpha + beta)).
Proof.
  destruct p; unfold plane_matrix; eval_matrix;
    rewrite cos_plus, sin_plus; matrix_eq ltac:(ring).
Qed.

(** X4.  Rotations of two planes that share no axis commute: xy with zt,
    xz with yt, yz with xt. *)
Theorem complementary_planes_commute (alpha beta : R) :
  multiply (dXY (Num alpha)) (dZT (Num beta))
  = multiply (dZT (Num beta)) (dXY (Num alpha))
  /\ multiply (dXZ (Num alpha)) (dYT (Num beta))
     = multiply (dYT (Num beta)) (dXZ (Num alpha))
  /\ multiply (dYZ (Num alpha)) (dXT (Num beta))
     = multiply (dXT (Num beta)) (dYZ (Num alpha)).
Proof.
  repeat split; eval_matrix; matrix_eq ltac:(ring).
Qed.

(** ** What [NaN] does *)

Lemma nmul_NaN_r (a : number) : (a * NaN)%num = NaN.
Proof. destruct a; reflexivity. Qed.

Lemma nadd_NaN_r (a : number) : (a + NaN)%num = NaN.
Proof. destruct a; reflexivity. Qed.

Lemma sum4_NaN (f : nat -> number) (k : nat) :
  k < 4 -> f k = NaN -> sum4 f = NaN.
Proof.
  intros Hk Hf. unfold sum4.
  destruct k as [|[|[|[|k]]]]; try lia; rewrite Hf;
    rewrite ?nadd_NaN_r; reflexivity.
Qed.

(** A [NaN] anywhere in column [c] of the right factor fills column [c]
    of the product. *)
Lemma multiply_NaN_right (a b : Matrix4) (c k : nat) :
  c < 4 -> k < 4 -> entry b k c = NaN -> nan_col (multiply a b) c.
Proof.
  intros Hc Hk Hb r Hr. unfold multiply.
  rewrite multiplyMatrices_entry by assumption.
  apply (sum4_NaN _ k Hk). rewrite Hb. apply nmul_NaN_r.
Qed.

(** A column of [NaN] in the left factor fills the whole product. *)
Lemma multiply_NaN_left (a b : Matrix4) (c k : nat) :
  c < 4 -> k < 4 -> nan_col a k -> nan_col (multiply a b) c.
Proof.
  intros Hc Hk Ha r Hr. unfold multiply.
  rewrite multiplyMatrices_entry by assumption.
  apply (sum4_NaN _ k Hk). rewrite Ha by assumption. reflexivity.
Qed.

Lemma plane_matrix_NaN (p : Plane) :
  entry (plane_matrix p NaN) (first_axis p) (first_axis p) = NaN.
Proof. destruct p; reflexivity. Qed.

Lemma updateMatrix4D_NaN_column (this : Object4D) (p : Plane) :
  getAngle p (rot this) = NaN ->
  nan_col (matrix4D (updateMatrix4D this)) (first_axis p).
Proof.
  intros Hangle. rewrite updateMatrix4D_matrix.
  assert (Hk : first_axis p < 4) by (destruct p; cbn; lia).
  pose proof (plane_matrix_NaN p) as Hnan.
  set (k := first_axis p) in *. clearbody k.
  destruct p; cbn [getAngle] in Hangle; rewrite Hangle.
  - (* xy: fourth factor *)
    do 2 (apply (multiply_NaN_left _ _ k k Hk Hk)).
    exact (multiply_NaN_right _ _ k k Hk Hk Hnan).
  - (* xz: last factor *)
    exact (multiply_NaN_right _ _ k k Hk Hk Hnan).
  - (* yz: fifth factor *)
    apply (multiply_NaN_left _ _ k k Hk Hk).
    exact (multiply_NaN_right _ _ k k Hk Hk Hnan).
  - (* xt: first factor *)
    do 5 (apply (multiply_NaN_left _ _ k k Hk Hk)).
    exact (multiply_NaN_right _ _ k k Hk Hk Hnan).
  - (* yt: second factor *)
    do 4 (apply (multiply_NaN_left _ _ k k Hk Hk)).
    exact (multiply_NaN_right _ _ k k Hk Hk Hnan).
  - (* zt: third factor *)
    do 3 (apply (multiply_NaN_left _ _ k k Hk Hk)).
    exact (multiply_NaN_right _ _ k k Hk Hk Hnan).
Qed.

(** X5.  Nothing guards the angles: if one of them is [NaN], the callback
    overwrites every number of the transformed buffer with [NaN]. *)
Theorem NaN_angle_floods_buffer (this : Object4D) (p : Plane) (j : nat) :
  getAngle p (rot this) = NaN ->
  length (transformedVertexes this) = length (vertexes this) ->
  j < length (vertexes this) ->
  transformedVertexes (onChangeFunc this) !! j = Some NaN.
Proof.
  intros Hangle Hlen Hj. unfold onChangeFunc.
  rewrite updateVertexes_lookup.
  change (vertexes (updateMatrix4D this)) with (vertexes this).
  change (transformedVertexes (updateMatrix4D this))
    with (transformedVertexes this).
  case_decide as Hc; [|lia].
  f_equal. rewrite transformed_at_vertex.
  assert (Hk : first_axis p < 4) by (destruct p; cbn; lia).
  apply (sum4_NaN _ (first_axis p) Hk).
  rewrite (updateMatrix4D_NaN_column this p Hangle) by lia. reflexivity.
Qed.

Lemma NaN_angle_floods_buffer_witness :
  transformedVertexes
    (onChangeFunc
       (setAngle XZ NaN (new_Object4D [[Num 1; Num 2; Num 3; Num 4]] [] [])))
  !! 3 = Some NaN.
Proof.
  apply (NaN_angle_floods_buffer _ XZ 3);
    [reflexivity | reflexivity | cbn; lia].
Defined.

(** ** Buffers that are not whole blocks *)

(** X6.  The buffer need not be a whole number of blocks of 16: every
    4-vector that lies inside the buffer, those of a shorter last block
    included, is replaced by [matrix4D] applied to it. *)
Theorem updateVertexes_any_vertex_count (this : Object4D) (v : nat) :
  length (transformedVertexes this) = length (vertexes this) ->
  4 * v + 4 <= length (vertexes this) ->
  vertex v (transformedVertexes (updateVertexes this))
  = mat_vec (matrix4D this) (vertex v (vertexes this)).
Proof.
  intros Hlen Hv. apply list_eq. intros i.
  destruct (decide (i < 4)) as [Hi|Hi].
  - unfold vertex at 1. rewrite lookup_take_lt, lookup_drop by lia.
    rewrite updateVertexes_lookup.
    case_decide as Hc; [|lia].
    rewrite transformed_at_vertex.
    unfold mat_vec. rewrite list_lookup_fmap, lookup_seq_lt by lia.
    cbn [fmap option_fmap option_map Nat.add].
    replace ((4 * v + i) mod 4) with i by lia.
    replace ((4 * v + i) / 4) with v by lia.
    unfold sum4. rewrite !vertex_read by lia. reflexivity.
  - rewrite !lookup_ge_None_2; [reflexivity | |].
    + unfold mat_vec. rewrite length_fmap, length_seq. lia.
    + unfold vertex. rewrite length_take. lia.
Qed.

Lemma updateVertexes_any_vertex_count_witness :
  let this :=
    new_Object4D
      [ [Num 1; Num 0; Num 0; Num 0]; [Num 0; Num 1; Num 0; Num 0];
        [Num 0; Num 0; Num 1; Num 0]; [Num 0; Num 0; Num 0; Num 1];
        [Num 1; Num 2; Num 3; Num 4] ] [] [] in
  vertex 4 (transformedVertexes (updateVertexes this))
  = mat_vec (matrix4D this) (vertex 4 (vertexes this)).
Proof.
  intros this. apply (updateVertexes_any_vertex_count this 4);
    [reflexivity|].
  cbn [this new_Object4D vertexes new_Float32Array flat concat app length].
  lia.
Defined.

(** X7.  A last 4-vector cut short by the end of the buffer is not
    transformed: each of its numbers is overwritten with [NaN], whatever
    the matrix. *)
Theorem incomplete_vector_becomes_NaN (this : Object4D) (j : nat) :
  length (transformedVertexes this) = length (vertexes this) ->
  j < length (vertexes this) ->
  length (vertexes this) < 4 * (j / 4) + 4 ->
  transformedVertexes (updateVertexes this) !! j = Some NaN.
Proof.
  intros Hlen Hj Hcut.
  rewrite updateVertexes_lookup.
  case_decide as Hc; [|lia].
  f_equal. rewrite transformed_at_vertex.
  apply (sum4_NaN _ 3); [lia|].
  unfold read. rewrite lookup_ge_None_2 by lia. apply nmul_NaN_r.
Qed.

Lemma incomplete_vector_becomes_NaN_witness :
  transformedVertexes
    (updateVertexes (new_Object4D [[Num 1; Num 2; Num 3]] [] []))
  !! 1 = Some NaN.
Proof.
  apply (incomplete_vector_becomes_NaN _ 1); [reflexivity | |]; cbn; lia.
Defined.

(** ** Calling twice, and calling after any history *)

Lemma set_needsUpdate_twice (child : Object3D) :
  set_needsUpdate (set_needsUpdate child) = set_needsUpdate child.
Proof. reflexivity. Qed.

(** X8.  [updateVertexes] is idempotent, and so is the slider callback:
    a second call in a row changes nothing. *)
Theorem update_twice (this : Object4D) :
  updateVertexes (updateVertexes this) = updateVertexes this
  /\ onChangeFunc (onChangeFunc this) = onChangeFunc this.
Proof.
  assert (Hidem : forall o : Object4D,
             updateVertexes (updateVertexes o) = updateVertexes o).
  { intros o.
    assert (Ht : transformedVertexes (updateVertexes (updateVertexes o))
                 = transformedVertexes (updateVertexes o)).
    { apply list_eq. intros j.
      rewrite (updateVertexes_lookup (updateVertexes o)).
      rewrite updateVertexes_length.
      change (vertexes (updateVertexes o)) with (vertexes o).
      change (matrix4D (updateVertexes o)) with (matrix4D o).
      rewrite (updateVertexes_lookup o).
      case_decide; reflexivity. }
    change (updateVertexes (updateVertexes o))
      with (mkObject4D (vertexes o)
              (transformedVertexes (updateVertexes (updateVertexes o)))
              (set_needsUpdate (set_needsUpdate (edges o)))
              (set_needsUpdate (set_needsUpdate (mesh o)))
              (rot o) (matrix4D o)).
    rewrite Ht. reflexivity. }
  split; [apply Hidem|].
  unfold onChangeFunc.
  assert (Hm : updateMatrix4D (updateVertexes (updateMatrix4D this))
               = updateVertexes (updateMatrix4D this)).
  { reflexivity. }
  rewrite Hm. apply Hidem.
Qed.

Lemma run_lengths (calls : list call) :
  forall this : Object4D,
    length (transformedVertexes this) = length (vertexes this) ->
    length (transformedVertexes (run calls this))
    = length (vertexes (run calls this)).
Proof.
  unfold run. induction calls as [|c calls IH]; intros this Hlen;
    cbn [foldl]; [assumption|].
  apply IH. destruct c; cbn [step]; try assumption.
  rewrite updateVertexes_length. exact Hlen.
Qed.

(** X9.  However an object was built and whatever was called on it, its
    two buffers have the same length: the number of coordinates handed to
    the constructor. *)
Theorem buffers_keep_their_length (vertexes0 : list (list number))
    (edges0 faces0 : list (list Z)) (calls : list call) :
  let this := run calls (new_Object4D vertexes0 edges0 faces0) in
  length (vertexes this) = length (flat vertexes0)
  /\ length (transformedVertexes this) = length (flat vertexes0).
Proof.
  intros this. subst this.
  rewrite run_lengths by reflexivity.
  rewrite run_vertexes. split; reflexivity.
Qed.

(** X10.  The slider callback leaves nothing of the past in the buffer:
    two histories of calls on the same new object that end with the same
    angles give, after the callback, the same [matrix4D] and the same
    transformed buffer. *)
Theorem onChangeFunc_forgets_history (vertexes0 : list (list number))
    (edges0 faces0 : list (list Z)) (calls1 calls2 : list call) :
  let this1 := run calls1 (new_Object4D vertexes0 edges0 faces0) in
  let this2 := run calls2 (new_Object4D vertexes0 edges0 faces0) in
  rot this1 = rot this2 ->
  matrix4D (onChangeFunc this1) = matrix4D (onChangeFunc this2)
  /\ transformedVertexes (onChangeFunc this1)
     = transformedVertexes (onChangeFunc this2).
Proof.
  intros this1 this2 Hrot.
  assert (Hm : matrix4D (updateMatrix4D this1)
               = matrix4D (updateMatrix4D this2)).
  { rewrite !updateMatrix4D_matrix, Hrot. reflexivity. }
  split; [exact Hm|].
  assert (Ht1 : length (transformedVertexes this1) = length (vertexes this1))
    by (apply run_lengths; reflexivity).
  assert (Ht2 : length (transformedVertexes this2) = length (vertexes this2))
    by (apply run_lengths; reflexivity).
  assert (Hv : vertexes this1 = vertexes this2)
    by (unfold this1, this2; rewrite !run_vertexes; reflexivity).
  apply list_eq. intros j. unfold onChangeFunc.
  rewrite !updateVertexes_lookup.
  change (vertexes (updateMatrix4D this1)) with (vertexes this1).
  change (vertexes (updateMatrix4D this2)) with (vertexes this2).
  change (transformedVertexes (updateMatrix4D this1))
    with (transformedVertexes this1).
  change (transformedVertexes (updateMatrix4D this2))
    with (transformedVertexes this2).
  rewrite Hv in Ht1. rewrite Hm, Ht1, Ht2, Hv.
  case_decide as Hc; [reflexivity|].
  rewrite !lookup_ge_None_2 by lia. reflexivity.
Qed.

Lemma onChangeFunc_forgets_history_witness :
  let new := new_Object4D [[Num 1; Num 2; Num 3; Num 4]] [] [] in
  let this1 :=
    run [SetAngle XY (Num 1); UpdateMatrix4D; UpdateVertexes;
         SetAngle XY (Num 2)] new in
  let this2 := run [SetAngle XY (Num 2)] new in
  matrix4D (onChangeFunc this1) = matrix4D (onChangeFunc this2)
  /\ transformedVertexes (onChangeFunc this1)
     = transformedVertexes (onChangeFunc this2).
Proof.
  intros new this1 this2.
  apply (onChangeFunc_forgets_history
           [[Num 1; Num 2; Num 3; Num 4]] [] []
           [SetAngle XY (Num 1); UpdateMatrix4D; UpdateVertexes;
            SetAngle XY (Num 2)]
           [SetAngle XY (Num 2)]).
  reflexivity.
Defined.

(** ** The geometry of the hyperbox *)

Lemma hyperboxVertexes_corner (lx ly lz lt : R) (i : nat) :
  i < 16 ->
  hyperboxVertexes (Num lx) (Num ly) (Num lz) (Num lt) !! i
  = Some (inj4 (corner lx ly lz lt i)).
Proof.
  intros Hi.
  do 16 (destruct i as [|i];
         [cbv - [IZR Rdiv Rminus Rmult Ropp]; vertex_eq|]).
  lia.
Qed.

Lemma hyperboxVertexes_length (lx ly lz lt : number) :
  length (hyperboxVertexes lx ly lz lt) = 16.
Proof. reflexivity. Qed.

Lemma testbits_determine_index :
  Forall (fun i =>
            Forall (fun j =>
                      Nat.testbit i 0 = Nat.testbit j 0 ->
                      Nat.testbit i 1 = Nat.testbit j 1 ->
                      Nat.testbit i 2 = Nat.testbit j 2 ->
                      Nat.testbit i 3 = Nat.testbit j 3 -> i = j)
                   (seq 0 16))
         (seq 0 16).
Proof.
  vm_compute.
  repeat (apply List.Forall_cons;
          [repeat (apply List.Forall_cons;
                   [intros; first [reflexivity | discriminate]|]);
           apply List.Forall_nil|]).
  apply List.Forall_nil.
Qed.

Lemma half_injective (l : R) (b b' : bool) :
  l <> 0%R ->
  (if b then l / 2 else - l / 2)%R = (if b' then l / 2 else - l / 2)%R ->
  b = b'.
Proof. intros Hl. destruct b, b'; intros H; try reflexivity; lra. Qed.

(** X11.  The sixteen vertices of [hyperboxVertexes] are pairwise distinct
    exactly when none of the four edge lengths is zero; a zero length is
    accepted and makes vertices coincide. *)
Theorem hyperboxVertexes_distinct (lx ly lz lt : R) :
  NoDup (hyperboxVertexes (Num lx) (Num ly) (Num lz) (Num lt))
  <-> (lx <> 0 /\ ly <> 0 /\ lz <> 0 /\ lt <> 0)%R.
Proof.
  rewrite NoDup_alt. split.
  - intros Hnd.
    pose proof (hyperboxVertexes_corner lx ly lz lt 0 ltac:(lia)) as H0.
    cbv [corner Nat.testbit Nat.bitwise Nat.odd Nat.even negb Nat.div2
         Nat.shiftr Nat.iter nat_rect inj4] in H0.
    repeat split; intros Hz.
    + specialize (Hnd 0 1 _ H0). assert (0 = 1); [|lia]. apply Hnd.
      rewrite (hyperboxVertexes_corner lx ly lz lt 1) by lia.
      cbv - [IZR Rdiv Rminus Rmult Ropp]. subst lx. vertex_eq.
    + specialize (Hnd 0 2 _ H0). assert (0 = 2); [|lia]. apply Hnd.
      rewrite (hyperboxVertexes_corner lx ly lz lt 2) by lia.
      cbv - [IZR Rdiv Rminus Rmult Ropp]. subst ly. vertex_eq.
    + specialize (Hnd 0 4 _ H0). assert (0 = 4); [|lia]. apply Hnd.
      rewrite (hyperboxVertexes_corner lx ly lz lt 4) by lia.
      cbv - [IZR Rdiv Rminus Rmult Ropp]. subst lz. vertex_eq.
    + specialize (Hnd 0 8 _ H0). assert (0 = 8); [|lia]. apply Hnd.
      rewrite (hyperboxVertexes_corner lx ly lz lt 8) by lia.
      cbv - [IZR Rdiv Rminus Rmult Ropp]. subst lt. vertex_eq.
  - intros (Hx & Hy & Hz & Ht) i j v Hi Hj.
    assert (Hi16 : i < 16).
    { apply lookup_lt_Some in Hi.
      rewrite hyperboxVertexes_length in Hi. exact Hi. }
    assert (Hj16 : j < 16).
    { apply lookup_lt_Some in Hj.
      rewrite hyperboxVertexes_length in Hj. exact Hj. }
    rewrite hyperboxVertexes_corner in Hi, Hj by assumption.
    rewrite <- Hj in Hi. injection Hi as H0 H1 H2 H3.
    apply half_injective in H0, H1, H2, H3; try assumption.
    pose proof testbits_determine_index as Hall.
    rewrite Forall_forall in Hall. specialize (Hall i).
    rewrite Forall_forall in Hall.
    apply Hall; try assumption; apply elem_of_seq; lia.
Qed.

(** X12.  Every edge of [hyperboxEdges] joins two corners of the box that
    lie one edge length apart along one axis: the second end is the first
    moved by the edge length of axis [dir], all other coordinates equal. *)
Theorem edges_run_along_axes (lx ly lz lt : R) (a b : Z) :
  [a; b] ∈ hyperboxEdges ->
  exists dir : Z,
    (0 <= dir < 4)%Z /\ b = (a + 2 ^ dir)%Z
    /\ hyperboxVertexes (Num lx) (Num ly) (Num lz) (Num lt) !! Z.to_nat a
       = Some (inj4 (corner lx ly lz lt (Z.to_nat a)))
    /\ hyperboxVertexes (Num lx) (Num ly) (Num lz) (Num lt) !! Z.to_nat b
       = Some (inj4 (axis_step dir (edge_length lx ly lz lt dir)
                               (corner lx ly lz lt (Z.to_nat a)))).
Proof.
  intros Hab.
  apply hyperboxEdges_elem in Hab as (i & dir & Hi & Hdir & Hbit & Heq).
  injection Heq as -> ->.
  exists dir. split; [lia|]. split; [reflexivity|].
  split; [apply hyperboxVertexes_corner; lia|].
  assert (Hi16 : (i = 0 \/ i = 1 \/ i = 2 \/ i = 3 \/ i = 4 \/ i = 5
                  \/ i = 6 \/ i = 7 \/ i = 8 \/ i = 9 \/ i = 10 \/ i = 11
                  \/ i = 12 \/ i = 13 \/ i = 14 \/ i = 15)%Z) by lia.
  assert (Hdir4 : (dir = 0 \/ dir = 1 \/ dir = 2 \/ dir = 3)%Z) by lia.
  clear Hi Hdir.
  repeat (destruct Hi16 as [-> | Hi16]); try subst i;
    repeat (destruct Hdir4 as [-> | Hdir4]); try subst dir;
    vm_compute in Hbit; try discriminate Hbit;
    try (rewrite hyperboxVertexes_corner by (vm_compute; lia));
    apply (f_equal Some), (f_equal inj4);
    cbv - [IZR Rdiv Rminus Rmult Ropp Rplus]; tuple_eq.
Qed.

Lemma edges_run_along_axes_witness :
  exists dir : Z,
    (0 <= dir < 4)%Z /\ 7%Z = (5 + 2 ^ dir)%Z
    /\ hyperboxVertexes (Num 3) (Num 3) (Num 3) (Num 10) !! Z.to_nat 5
       = Some (inj4 (corner 3 3 3 10 (Z.to_nat 5)))
    /\ hyperboxVertexes (Num 3) (Num 3) (Num 3) (Num 10) !! Z.to_nat 7
       = Some (inj4 (axis_step dir (edge_length 3 3 3 10 dir)
                               (corner 3 3 3 10 (Z.to_nat 5)))).
Proof.
  apply (edges_run_along_axes 3 3 3 10 5 7).
  apply (bool_decide_unpack _). vm_compute. reflexivity.
Defined.

(** The three nested loops of [hypercubeFaces], as a comprehension. *)
Lemma hypercubeFaces_comprehension :
  hypercubeFaces
  = i ← seqZ 0 16; dir1 ← [0%Z; 1%Z; 2%Z; 3%Z]; dir2 ← [0%Z; 1%Z; 2%Z; 3%Z];
    if decide ((dir2 > dir1)%Z /\ at_dir (vert_of i) dir1 = 0%Z
               /\ at_dir (vert_of i) dir2 = 0%Z)
    then [ [i; (i + 2 ^ dir1)%Z; (i + 2 ^ dir1 + 2 ^ dir2)%Z];
           [i; (i + 2 ^ dir1 + 2 ^ dir2)%Z; (i + 2 ^ dir2)%Z] ]
    else [].
Proof. vm_compute. reflexivity. Qed.

Lemma bit_clear (i dir : Z) :
  (0 <= i < 16)%Z -> (0 <= dir < 4)%Z ->
  at_dir (vert_of i) dir = 0%Z <-> Z.testbit i dir = false.
Proof.
  intros Hi Hdir. rewrite vert_of_testbit by lia.
  destruct (Z.testbit i dir); cbn; split; intros H;
    first [reflexivity | discriminate].
Qed.

(** X13.  [hypercubeFaces] holds, for every vertex index [i] in [0,16) and
    every pair of axes [dir1 < dir2] whose bits in [i] are both 0, the two
    triangles [i, i+2^dir1, i+2^dir1+2^dir2] and
    [i, i+2^dir1+2^dir2, i+2^dir2], nothing else, and none twice. *)
Theorem hypercubeFaces_characterisation :
  (forall f : list Z,
      f ∈ hypercubeFaces
      <-> exists i dir1 dir2 : Z,
            (0 <= i < 16)%Z /\ (0 <= dir1 < dir2)%Z /\ (dir2 < 4)%Z
            /\ Z.testbit i dir1 = false /\ Z.testbit i dir2 = false
            /\ (f = [i; (i + 2 ^ dir1)%Z; (i + 2 ^ dir1 + 2 ^ dir2)%Z]
                \/ f = [i; (i + 2 ^ dir1 + 2 ^ dir2)%Z; (i + 2 ^ dir2)%Z]))
  /\ NoDup hypercubeFaces.
Proof.
  split.
  - intros f. rewrite hypercubeFaces_comprehension, list_elem_of_bind. split.
    + intros (i & Hf & Hi).
      apply list_elem_of_bind in Hf as (dir1 & Hf & Hd1).
      apply list_elem_of_bind in Hf as (dir2 & Hf & Hd2).
      apply elem_of_seqZ in Hi. apply dir_range in Hd1, Hd2.
      case_decide as Hc; [|apply elem_of_nil in Hf; destruct Hf].
      destruct Hc as (Hlt & Hb1 & Hb2).
      apply bit_clear in Hb1, Hb2; try lia.
      exists i, dir1, dir2.
      rewrite !elem_of_cons, elem_of_nil in Hf.
      repeat split; try lia; try assumption.
      destruct Hf as [Hf | [Hf | []]]; [left | right]; exact Hf.
    + intros (i & dir1 & dir2 & Hi & Hd1 & Hd2 & Hb1 & Hb2 & Hf).
      exists i. split; [|apply elem_of_seqZ; lia].
      apply list_elem_of_bind. exists dir1.
      split; [|apply dir_range; lia].
      apply list_elem_of_bind. exists dir2.
      split; [|apply dir_range; lia].
      rewrite decide_True.
      * rewrite !elem_of_cons. destruct Hf as [-> | ->]; auto.
      * repeat split; [lia | apply bit_clear; [lia | lia | assumption] ..].
  - apply (bool_decide_unpack _). vm_compute. reflexivity.
Qed.

(** X14.  Every triangle of [hypercubeFaces] lies in one square face of
    the box: its three indices are distinct and two of its sides are edges
    of [hyperboxEdges], meeting at the second or at the third index. *)
Theorem triangles_sit_on_edges :
  Forall
    (fun f : list Z =>
       exists t0 t1 t2 : Z,
         f = [t0; t1; t2]
         /\ t0 <> t1 /\ t1 <> t2 /\ t0 <> t2
         /\ (([t0; t1] ∈ hyperboxEdges /\ [t1; t2] ∈ hyperboxEdges)
             \/ ([t0; t2] ∈ hyperboxEdges /\ [t2; t1] ∈ hyperboxEdges)))
    hypercubeFaces.
Proof.
  assert (Hdec :
    Forall
      (fun f : list Z =>
         length f = 3
         /\ f !!! 0 <> f !!! 1 /\ f !!! 1 <> f !!! 2 /\ f !!! 0 <> f !!! 2
         /\ (([f !!! 0; f !!! 1] ∈ hyperboxEdges
              /\ [f !!! 1; f !!! 2] ∈ hyperboxEdges)
             \/ ([f !!! 0; f !!! 2] ∈ hyperboxEdges
                 /\ [f !!! 2; f !!! 1] ∈ hyperboxEdges)))
      hypercubeFaces).
  { apply (bool_decide_unpack _). vm_compute. reflexivity. }
  eapply Forall_impl; [exact Hdec|].
  intros f (Hlen & H).
  destruct f as [|t0 [|t1 [|t2 [|]]]]; try discriminate Hlen.
  exists t0, t1, t2. split; [reflexivity | exact H].
Qed.

(** ** The object [Hyperbox] builds *)

(** X15.  For all real edge lengths, [Hyperbox] builds a well-formed
    object: 64 coordinates in each buffer (four whole blocks of 16), 64
    edge indices and 144 face indices, each of them the index of a
    4-vector that lies inside the vertex buffer. *)
Theorem Hyperbox_is_well_formed (lx ly lz lt : R) :
  let this := Hyperbox (Num lx) (Num ly) (Num lz) (Num lt) in
  well_formed this
  /\ length (vertexes this) = 64
  /\ length (index (geometry (edges this))) = 64
  /\ length (index (geometry (mesh this))) = 144
  /\ Forall (fun i : Z => (0 <= i)%Z
                          /\ 4 * Z.to_nat i + 4 <= length (vertexes this))
            (index (geometry (edges this)) ++ index (geometry (mesh this))).
Proof.
  intros this.
  assert (Hlen : length (vertexes this) = 64) by reflexivity.
  split; [|split; [exact Hlen|]].
  - apply well_formed_new.
    cbv - [IZR Rdiv Rminus Rmult Ropp Rplus].
    repeat (apply List.Forall_cons; [split; [reflexivity|repeat constructor]|]).
    apply List.Forall_nil.
  - rewrite Hlen.
    change (index (geometry (edges this))) with (flat hyperboxEdges).
    change (index (geometry (mesh this))) with (flat hypercubeFaces).
    split; [vm_compute; reflexivity|]. split; [vm_compute; reflexivity|].
    apply (bool_decide_unpack _). vm_compute. reflexivity.
Qed.

(** ** No [NaN] without cause *)

Lemma real_matrix_entry (m : Matrix4) (r c : nat) :
  real_matrix m -> r < 4 -> c < 4 -> exists x : R, entry m r c = Num x.
Proof.
  intros (l & Hlen & Hel) Hr Hc. unfold entry, read.
  rewrite Hel, list_lookup_fmap.
  destruct (lookup_lt_is_Some_2 l (4 * c + r)) as [x Hx]; [lia|].
  rewrite Hx. exists x. reflexivity.
Qed.

(** X16.  On a well-formed object whose six angles are reals the callback
    never produces [NaN]: every number of the transformed buffer is a
    real. *)
Theorem real_angles_keep_buffer_real (this : Object4D) :
  real_angles (rot this) ->
  well_formed this ->
  Forall is_real (transformedVertexes (onChangeFunc this)).
Proof.
  intros Hangles (Hlen & Hmod & Hreal).
  destruct (updateMatrix4D_real_isometry this Hangles) as (Hm & _).
  apply Forall_lookup. intros j x Hj.
  unfold onChangeFunc in Hj. rewrite updateVertexes_lookup in Hj.
  change (vertexes (updateMatrix4D this)) with (vertexes this) in Hj.
  change (transformedVertexes (updateMatrix4D this))
    with (transformedVertexes this) in Hj.
  case_decide as Hc.
  - assert (Hx : x = transformed_at (vertexes this)
                                    (matrix4D (updateMatrix4D this)) j)
      by congruence.
    subst x. clear Hj. rewrite transformed_at_vertex.
    unfold sum4, read.
    destruct (real_matrix_entry _ (j mod 4) 0 Hm) as [m0 ->]; [lia | lia |].
    destruct (real_matrix_entry _ (j mod 4) 1 Hm) as [m1 ->]; [lia | lia |].
    destruct (real_matrix_entry _ (j mod 4) 2 Hm) as [m2 ->]; [lia | lia |].
    destruct (real_matrix_entry _ (j mod 4) 3 Hm) as [m3 ->]; [lia | lia |].
    destruct (real_lookup _ (4 * (j / 4) + 0) Hreal) as [x0 H0]; [lia|].
    destruct (real_lookup _ (4 * (j / 4) + 1) Hreal) as [x1 H1]; [lia|].
    destruct (real_lookup _ (4 * (j / 4) + 2) Hreal) as [x2 H2]; [lia|].
    destruct (real_lookup _ (4 * (j / 4) + 3) Hreal) as [x3 H3]; [lia|].
    rewrite H0, H1, H2, H3. exact I.
  - apply lookup_lt_Some in Hj. lia.
Qed.

Lemma real_angles_keep_buffer_real_witness :
  Forall is_real
    (transformedVertexes
       (onChangeFunc
          (setAngle YT (Num 2)
             (new_Object4D [[Num 1; Num 2; Num 3; Num 4]] [] [])))).
Proof.
  apply real_angles_keep_buffer_real;
    [repeat split | repeat split; repeat constructor].
Defined.
